(** * dfvfs: path specifications and the SQLite blob / FVDE file systems

    A shallow embedding of
      - dfvfs/path/fake_path_spec.py
      - dfvfs/vfs/sqlite_blob_file_system.py
      - dfvfs/vfs/fvde_file_system.py

    Python objects are modelled as they are used by these three modules:
    a path specification is a type indicator, a parent and a dictionary of
    attributes; a file system instance is a record of its fields; calls
    that leave the three modules (the resolver, file-like objects, the key
    chain, pyfvde) are answered by an environment and logged in the order
    they are made. *)

From stdpp Require Import gmap strings list.
From Stdlib Require Import ZArith.

Local Open Scope string_scope.
Local Open Scope list_scope.

(* ===================================================================== *)
(** ** Python values *)
(* ===================================================================== *)

(** The values that flow through the three modules.  A path specification
    holds its parent and its attributes, which are values again. *)
#[warnings="-register-all"]
Inductive pyval : Type :=
| PyNone
| PyBool (b : bool)
| PyInt (z : Z)
| PyStr (s : string)
| PyTuple (items : list pyval)
| PyPathSpec (p : PathSpec)
with PathSpec : Type :=
| Build_PathSpec (type_indicator : string) (parent : pyval)
                 (attrs : gmap string pyval).

Definition type_indicator (p : PathSpec) : string :=
  match p with Build_PathSpec t _ _ => t end.

(** [path_spec.parent] *)
Definition parent (p : PathSpec) : pyval :=
  match p with Build_PathSpec _ q _ => q end.

Definition attrs (p : PathSpec) : gmap string pyval :=
  match p with Build_PathSpec _ _ a => a end.

(** [x is None] *)
Definition is_None (v : pyval) : bool :=
  match v with PyNone => true | _ => false end.

(** Truth value of [x] in [if x:].  A path specification defines neither
    [__len__] nor [__nonzero__], so it is always true. *)
Definition truthy (v : pyval) : bool :=
  match v with
  | PyNone => false
  | PyBool b => b
  | PyInt z => negb (z =? 0)%Z
  | PyStr s => negb (String.eqb s "")
  | PyTuple items => match items with [] => false | _ => true end
  | PyPathSpec _ => true
  end.

(* ===================================================================== *)
(** ** Exceptions *)
(* ===================================================================== *)

(** An exception instance: the names of its class and of the classes it
    inherits from, most derived first, and its message. *)
Record exc : Type := Build_exc {
  exc_mro : list string;
  exc_message : string
}.

(** [isinstance(e, cls)], which is how an [except cls:] clause selects. *)
Definition isinstance (e : exc) (cls : string) : bool :=
  existsb (String.eqb cls) (exc_mro e).

(** Modelled from the spec: [errors.PathSpecError] (dfvfs/lib/errors.py,
    missing), the structural error kind, a subclass of the package's
    [Error]. *)
Definition PathSpecError (msg : string) : exc :=
  Build_exc ["PathSpecError"; "Error"; "Exception"; "BaseException"] msg.

(** Modelled from the spec: [errors.AccessError] (dfvfs/lib/errors.py,
    missing), the access error kind, a subclass of the package's [Error]. *)
Definition AccessError (msg : string) : exc :=
  Build_exc ["AccessError"; "Error"; "Exception"; "BaseException"] msg.

(** The built-in classes the modules name. *)
Definition IOError (msg : string) : exc :=
  Build_exc ["IOError"; "Exception"; "BaseException"] msg.
Definition ValueError (msg : string) : exc :=
  Build_exc ["ValueError"; "Exception"; "BaseException"] msg.
Definition AttributeError (msg : string) : exc :=
  Build_exc ["AttributeError"; "Exception"; "BaseException"] msg.

(** Outcome of a Python call: it returns a value or raises. *)
Inductive result (A : Type) : Type :=
| Return (a : A)
| Raise (e : exc).
Arguments Return {A} a.
Arguments Raise {A} e.

(* ===================================================================== *)
(** ** Path specifications (dfvfs.path) *)
(* ===================================================================== *)

Module path.

(** Modelled from the spec: the type tag of the fake path specification
    (dfvfs/lib/definitions.py, missing). *)
Definition TYPE_INDICATOR_FAKE : string := "FAKE".

(** Modelled from the spec: the type tag of the SQLite blob backend
    (dfvfs/lib/definitions.py, missing). *)
Definition TYPE_INDICATOR_SQLITE_BLOB : string := "SQLITE_BLOB".

(** Modelled from the spec: the type tag of the FVDE backend
    (dfvfs/lib/definitions.py, missing). *)
Definition TYPE_INDICATOR_FVDE : string := "FVDE".

(** Modelled from the spec: [PathSpec.HasParent] of the base class
    (dfvfs/path/path_spec.py, missing): a node has a parent when its
    optional parent reference is set. *)
Definition HasParent (p : PathSpec) : bool := negb (is_None (parent p)).

(** [getattr(path_spec, name, None)] *)
Definition getattr_default (p : PathSpec) (name : string) : pyval :=
  default PyNone (attrs p !! name).

(** [path_spec.name]: raises AttributeError when the attribute is absent. *)
Definition getattr (p : PathSpec) (name : string) : result pyval :=
  match attrs p !! name with
  | Some v => Return v
  | None => Raise (AttributeError name)
  end.

(** Modelled from the spec: [LocationPathSpec.__init__], the initialiser of
    the base class of the fake path specification
    (dfvfs/path/location_path_spec.py, missing).  It builds the node from
    its tag, the location, the parent it is given and the remaining keyword
    arguments. *)
Definition LocationPathSpec_init (tag : string) (location : pyval)
    (parent : pyval) (kwargs : gmap string pyval) : result PathSpec :=
  Return (Build_PathSpec tag parent (<["location" := location]> kwargs)).

(** [FakePathSpec.__init__(self, location=None, **kwargs)] *)
Definition FakePathSpec (location : pyval) (kwargs : gmap string pyval)
    : result PathSpec :=
  let '(parent, kwargs) :=
    match kwargs !! "parent" with
    | Some v => (v, delete "parent" kwargs)
    | None => (PyNone, kwargs)
    end in
  if truthy parent then Raise (ValueError "Parent value set.")
  else LocationPathSpec_init TYPE_INDICATOR_FAKE location parent kwargs.

(** Modelled from the spec: the constructor of [SQLiteBlobPathSpec]
    (dfvfs/path/sqlite_blob_path_spec.py, missing).  The tag wraps an
    underlying byte source, so a missing parent is rejected with a
    structural error; the keyword arguments become the attributes, [None]
    where the caller gives none. *)
Definition SQLiteBlobPathSpec (column_name parent row_condition row_index
    table_name : pyval) : result PathSpec :=
  if is_None parent then Raise (PathSpecError "Missing parent value.")
  else Return (Build_PathSpec TYPE_INDICATOR_SQLITE_BLOB parent
         (<["column_name" := column_name]>
          (<["row_condition" := row_condition]>
           (<["row_index" := row_index]>
            (<["table_name" := table_name]> ∅))))).

(** Modelled from the spec: the constructor of [FVDEPathSpec]
    (dfvfs/path/fvde_path_spec.py, missing); the tag requires a parent. *)
Definition FVDEPathSpec (parent : pyval) (kwargs : gmap string pyval)
    : result PathSpec :=
  if is_None parent then Raise (PathSpecError "Missing parent value.")
  else Return (Build_PathSpec TYPE_INDICATOR_FVDE parent kwargs).

End path.

(* ===================================================================== *)
(** ** The world outside the three modules *)
(* ===================================================================== *)

(** Handles of the objects the collaborators hand out. *)
Definition file_object : Type := nat.   (* a file-like object of the resolver *)
Definition volume : Type := nat.        (* a [pyfvde.volume] *)
Definition context : Type := nat.       (* a [resolver.Context] *)
Definition object_id : Type := nat.     (* identity of a file system, [self] *)

(** The calls the modules make on their collaborators, with the arguments
    they pass.  The key chain handed to [FVDEVolumeOpen] is always the one
    of the resolver class, [resolver.Resolver.key_chain]. *)
Inductive call : Type :=
| call_OpenFileObject (path_spec : pyval) (resolver_context : context)
| call_close (fo : file_object)
| call_GetNumberOfRows (fo : file_object)
| call_ExtractCredentialsFromPathSpec (path_spec : PathSpec)
| call_pyfvde_volume
| call_FVDEVolumeOpen (fvde_volume : volume) (path_spec : PathSpec)
                      (fo : file_object).

(** How the collaborators answer.  Each answer may depend on everything
    that was called before (the history, oldest call first). *)
Record Env : Type := Build_Env {
  (** [resolver.Resolver.OpenFileObject(path_spec, resolver_context=...)] *)
  OpenFileObject : list call -> pyval -> context -> result file_object;
  (** [file_object.close()] *)
  close : list call -> file_object -> result unit;
  (** [file_object.GetNumberOfRows()] of a SQLite blob file *)
  file_GetNumberOfRows : list call -> file_object -> result Z;
  (** [resolver.Resolver.key_chain.ExtractCredentialsFromPathSpec(path_spec)] *)
  ExtractCredentialsFromPathSpec : list call -> PathSpec -> result pyval;
  (** [pyfvde.volume()] *)
  pyfvde_volume : list call -> result volume;
  (** [fvde.FVDEVolumeOpen(fvde_volume, path_spec, file_object, key_chain)] *)
  FVDEVolumeOpen : list call -> volume -> PathSpec -> file_object -> result unit
}.

(** A method body: from the history and the instance's fields to an
    outcome, the extended history and the updated fields. *)
Definition M (S A : Type) : Type := list call * S -> result A * (list call * S).

Section Monad.
Context {S : Type}.

Definition ret {A} (a : A) : M S A := fun st => (Return a, st).

Definition raise {A} (e : exc) : M S A := fun st => (Raise e, st).

Definition bind {A B} (m : M S A) (k : A -> M S B) : M S B :=
  fun st => match m st with
            | (Return a, st') => k a st'
            | (Raise e, st') => (Raise e, st')
            end.

(** A pure outcome (a constructor call, an attribute read). *)
Definition lift {A} (r : result A) : M S A := fun st => (r, st).

(** Reads the fields of [self]. *)
Definition get_self : M S S := fun st => (Return (snd st), st).

(** Assigns fields of [self]. *)
Definition set_self (f : S -> S) : M S unit :=
  fun st => (Return tt, (fst st, f (snd st))).

(** A call on a collaborator: answered from the history, then logged. *)
Definition external {A} (c : call) (answer : list call -> result A) : M S A :=
  fun st => (answer (fst st), ((fst st ++ [c])%list, snd st)).

(** [try: x = body / except classes: handler / (then) rest(x)] *)
Definition try_except {A B} (body : M S A) (classes : list string)
    (handler : M S B) (rest : A -> M S B) : M S B :=
  fun st => match body st with
            | (Return a, st') => rest a st'
            | (Raise e, st') =>
                if existsb (isinstance e) classes then handler st'
                else (Raise e, st')
            end.

(** [try: body / except: cleanup; raise] *)
Definition try_except_reraise {A} (body : M S A) (cleanup : M S unit) : M S A :=
  fun st => match body st with
            | (Return a, st') => (Return a, st')
            | (Raise e, st') =>
                match cleanup st' with
                | (Return _, st'') => (Raise e, st'')
                | (Raise e', st'') => (Raise e', st'')
                end
            end.
End Monad.

Declare Scope py_scope.
Delimit Scope py_scope with py.
Notation "'do' x <- m ; k" := (bind m (fun x => k))
  (at level 10, x name, m at level 100, k at level 200,
   format "'[v' 'do'  x  <-  m ; '/' k ']'") : py_scope.
Notation "'run' m ; k" := (bind m (fun _ => k))
  (at level 10, m at level 100, k at level 200,
   format "'[v' 'run'  m ; '/' k ']'") : py_scope.

(* ===================================================================== *)
(** ** File entries (dfvfs.vfs.*_file_entry) *)
(* ===================================================================== *)

(** Modelled from the spec: a file entry (dfvfs/vfs/file_entry.py,
    missing).  An entry is an addressable unit inside a file system: it
    keeps what its constructor is given. *)
Record FileEntry : Type := Build_FileEntry {
  entry_class : string;
  entry_resolver_context : context;
  entry_file_system : object_id;
  entry_path_spec : PathSpec;
  is_root : bool;
  is_virtual : bool
}.

(** Modelled from the spec: the constructor of [SQLiteBlobFileEntry]
    (dfvfs/vfs/sqlite_blob_file_entry.py, missing); [is_root] and
    [is_virtual] are false unless the caller sets them. *)
Definition SQLiteBlobFileEntry (resolver_context : context)
    (file_system : object_id) (path_spec : PathSpec)
    (is_root is_virtual : option bool) : FileEntry :=
  Build_FileEntry "SQLiteBlobFileEntry" resolver_context file_system path_spec
    (default false is_root) (default false is_virtual).

(** Modelled from the spec: the constructor of [FVDEFileEntry]
    (dfvfs/vfs/fvde_file_entry.py, missing); [is_root] and [is_virtual] are
    false unless the caller sets them. *)
Definition FVDEFileEntry (resolver_context : context)
    (file_system : object_id) (path_spec : PathSpec)
    (is_root is_virtual : option bool) : FileEntry :=
  Build_FileEntry "FVDEFileEntry" resolver_context file_system path_spec
    (default false is_root) (default false is_virtual).

Local Open Scope py_scope.

(** The four classes an existence check turns into a negative answer. *)
Definition existence_errors : list string :=
  ["AccessError"; "PathSpecError"; "IOError"; "ValueError"].

(* ===================================================================== *)
(** ** dfvfs/vfs/sqlite_blob_file_system.py *)
(* ===================================================================== *)

Module sqlite_blob_file_system.
Import path.

(** The fields of a [SQLiteBlobFileSystem].  [_resolver_context] and
    [_path_spec] are those of the base class [file_system.FileSystem]. *)
Record SQLiteBlobFileSystem : Type := Build_SQLiteBlobFileSystem {
  self : object_id;
  _resolver_context : context;
  _path_spec : option PathSpec;
  _file_object : option file_object;
  _number_of_rows : option Z
}.

Definition set_path_spec (v : option PathSpec) (s : SQLiteBlobFileSystem) :=
  Build_SQLiteBlobFileSystem (self s) (_resolver_context s) v
    (_file_object s) (_number_of_rows s).
Definition set_file_object (v : option file_object) (s : SQLiteBlobFileSystem) :=
  Build_SQLiteBlobFileSystem (self s) (_resolver_context s) (_path_spec s)
    v (_number_of_rows s).
Definition set_number_of_rows (v : option Z) (s : SQLiteBlobFileSystem) :=
  Build_SQLiteBlobFileSystem (self s) (_resolver_context s) (_path_spec s)
    (_file_object s) v.

(** [__init__(self, resolver_context)] *)
Definition __init__ (id : object_id) (resolver_context : context)
    : SQLiteBlobFileSystem :=
  Build_SQLiteBlobFileSystem id resolver_context None None None.

Section Methods.
Variable env : Env.

(** [_Close(self)] *)
Definition _Close : M SQLiteBlobFileSystem unit :=
  do s <- get_self;
  match _file_object s with
  | None => raise (AttributeError "close")
  | Some fo =>
      run external (call_close fo) (fun h => close env h fo);
      run set_self (set_file_object None);
      set_self (set_number_of_rows None)
  end.

(** [_Open(self, path_spec, mode='rb')] *)
Definition _Open (path_spec : PathSpec) (mode : string)
    : M SQLiteBlobFileSystem unit :=
  if negb (HasParent path_spec) then
    raise (PathSpecError "Unsupported path specification without parent.")
  else
    do s <- get_self;
    do fo <- external
        (call_OpenFileObject (parent path_spec) (_resolver_context s))
        (fun h => OpenFileObject env h (parent path_spec) (_resolver_context s));
    set_self (set_file_object (Some fo)).

(** Modelled from the spec: [FileSystem.Open] of the base class
  (dfvfs/vfs/file_system.py, missing): the backend-specific setup, after
  which the instance is open and knows its defining specification. *)
Definition Open (path_spec : PathSpec) (mode : string)
    : M SQLiteBlobFileSystem unit :=
  run _Open path_spec mode;
  set_self (set_path_spec (Some path_spec)).

(** [FileEntryExistsByPathSpec(self, path_spec)] *)
Definition FileEntryExistsByPathSpec (path_spec : PathSpec)
    : M SQLiteBlobFileSystem bool :=
  do s <- get_self;
  try_except
    (external (call_OpenFileObject (PyPathSpec path_spec) (_resolver_context s))
       (fun h => OpenFileObject env h (PyPathSpec path_spec) (_resolver_context s)))
    existence_errors
    (ret false)
    (fun fo =>
       run external (call_close fo) (fun h => close env h fo);
       ret true).

(** [GetFileEntryByPathSpec(self, path_spec)] *)
Definition GetFileEntryByPathSpec (path_spec : PathSpec)
    : M SQLiteBlobFileSystem FileEntry :=
  do s <- get_self;
  let row_index := getattr_default path_spec "row_index" in
  let row_condition := getattr_default path_spec "row_condition" in
  if is_None row_index && is_None row_condition then
    ret (SQLiteBlobFileEntry (_resolver_context s) (self s) path_spec
           (Some true) (Some true))
  else
    ret (SQLiteBlobFileEntry (_resolver_context s) (self s) path_spec
           None None).

(** [GetRootFileEntry(self)] *)
Definition GetRootFileEntry : M SQLiteBlobFileSystem FileEntry :=
  do s <- get_self;
  match _path_spec s with
  | None => raise (AttributeError "table_name")
  | Some defining =>
      do table_name <- lift (getattr defining "table_name");
      do column_name <- lift (getattr defining "column_name");
      do path_spec <- lift (SQLiteBlobPathSpec column_name (parent defining)
                              PyNone PyNone table_name);
      GetFileEntryByPathSpec path_spec
  end.

(** [GetNumberOfRows(self, path_spec)] *)
Definition GetNumberOfRows (path_spec : PathSpec)
    : M SQLiteBlobFileSystem Z :=
  do s <- get_self;
  match _number_of_rows s with
  | Some n => ret n
  | None =>
      do fo <- external
          (call_OpenFileObject (PyPathSpec path_spec) (_resolver_context s))
          (fun h => OpenFileObject env h (PyPathSpec path_spec) (_resolver_context s));
      do n <- external (call_GetNumberOfRows fo)
          (fun h => file_GetNumberOfRows env h fo);
      run set_self (set_number_of_rows (Some n));
      run external (call_close fo) (fun h => close env h fo);
      ret n
  end.
End Methods.

End sqlite_blob_file_system.

(* ===================================================================== *)
(** ** dfvfs/vfs/fvde_file_system.py *)
(* ===================================================================== *)

Module fvde_file_system.
Import path.

(** The fields of a [FVDEFileSystem].  [_resolver_context] and [_path_spec]
    are those of the base class [root_only_file_system.RootOnlyFileSystem]. *)
Record FVDEFileSystem : Type := Build_FVDEFileSystem {
  self : object_id;
  _resolver_context : context;
  _path_spec : option PathSpec;
  _fvde_volume : option volume;
  _file_object : option file_object
}.

Definition set_path_spec (v : option PathSpec) (s : FVDEFileSystem) :=
  Build_FVDEFileSystem (self s) (_resolver_context s) v
    (_fvde_volume s) (_file_object s).
Definition set_fvde_volume (v : option volume) (s : FVDEFileSystem) :=
  Build_FVDEFileSystem (self s) (_resolver_context s) (_path_spec s)
    v (_file_object s).
Definition set_file_object (v : option file_object) (s : FVDEFileSystem) :=
  Build_FVDEFileSystem (self s) (_resolver_context s) (_path_spec s)
    (_fvde_volume s) v.

(** [__init__(self, resolver_context)] *)
Definition __init__ (id : object_id) (resolver_context : context)
    : FVDEFileSystem :=
  Build_FVDEFileSystem id resolver_context None None None.

Section Methods.
Variable env : Env.

(** [_Open(self, path_spec, mode='rb')].  The value returned by
    [ExtractCredentialsFromPathSpec] is dropped: the call is a statement. *)
Definition _Open (path_spec : PathSpec) (mode : string)
    : M FVDEFileSystem unit :=
  if negb (HasParent path_spec) then
    raise (PathSpecError "Unsupported path specification without parent.")
  else
    do s <- get_self;
    run external (call_ExtractCredentialsFromPathSpec path_spec)
        (fun h => ExtractCredentialsFromPathSpec env h path_spec);
    do fvde_volume <- external call_pyfvde_volume (pyfvde_volume env);
    do fo <- external
        (call_OpenFileObject (parent path_spec) (_resolver_context s))
        (fun h => OpenFileObject env h (parent path_spec) (_resolver_context s));
    run try_except_reraise
        (external (call_FVDEVolumeOpen fvde_volume path_spec fo)
           (fun h => FVDEVolumeOpen env h fvde_volume path_spec fo))
        (external (call_close fo) (fun h => close env h fo));
    run set_self (set_fvde_volume (Some fvde_volume));
    set_self (set_file_object (Some fo)).

(** Modelled from the spec: [FileSystem.Open] of the base class
  (dfvfs/vfs/file_system.py, missing): the backend-specific setup, after
  which the instance is open and knows its defining specification. *)
Definition Open (path_spec : PathSpec) (mode : string)
    : M FVDEFileSystem unit :=
  run _Open path_spec mode;
  set_self (set_path_spec (Some path_spec)).

(** [GetFVDEVolume(self)] *)
Definition GetFVDEVolume : M FVDEFileSystem (option volume) :=
  do s <- get_self;
  ret (_fvde_volume s).

(** [GetFileEntryByPathSpec(self, path_spec)] *)
Definition GetFileEntryByPathSpec (path_spec : PathSpec)
    : M FVDEFileSystem FileEntry :=
  do s <- get_self;
  ret (FVDEFileEntry (_resolver_context s) (self s) path_spec
         (Some true) (Some true)).

(** [GetRootFileEntry(self)] *)
Definition GetRootFileEntry : M FVDEFileSystem FileEntry :=
  do s <- get_self;
  match _path_spec s with
  | None => raise (AttributeError "parent")
  | Some defining =>
      do path_spec <- lift (FVDEPathSpec (parent defining) ∅);
      GetFileEntryByPathSpec path_spec
  end.
End Methods.

End fvde_file_system.

(* ===================================================================== *)
(** ** Vocabulary of the properties, and concrete inputs *)
(* ===================================================================== *)

(** [e] is an instance of one of the four classes of [existence_errors]. *)
Definition in_taxonomy (e : exc) : bool :=
  existsb (isinstance e) existence_errors.

(** An attribute that [getattr(spec, name, None)] reads as [None]: it is not
    set, or it is set to [None]. *)
Definition absent_or_None (o : option pyval) : Prop :=
  o = None \/ o = Some PyNone.

(** The same collaborators, except that the value returned by
    [ExtractCredentialsFromPathSpec] is replaced by [f] of it. *)
Definition replace_credentials (f : pyval -> pyval) (env : Env) : Env :=
  Build_Env (OpenFileObject env) (close env) (file_GetNumberOfRows env)
    (fun h p => match ExtractCredentialsFromPathSpec env h p with
                | Return v => Return (f v)
                | Raise e => Raise e
                end)
    (pyfvde_volume env) (FVDEVolumeOpen env).

Module examples.
Import path.

(** A raw image file, the leaf of every chain below. *)
Definition os_spec : PathSpec :=
  Build_PathSpec "OS" PyNone (<["location" := PyStr "/image.dd"]> ∅).

(** [FakePathSpec(location=u'/', parent=os_spec)] *)
Definition kwargs_with_parent : gmap string pyval :=
  <["parent" := PyPathSpec os_spec]> ∅.

(** Table [blobs], column [data] of a database file: no row selected. *)
Definition blob_table_spec : PathSpec :=
  Build_PathSpec TYPE_INDICATOR_SQLITE_BLOB (PyPathSpec os_spec)
    (<["table_name" := PyStr "blobs"]> (<["column_name" := PyStr "data"]> ∅)).

(** The same table with [row_index=None] set explicitly. *)
Definition blob_row_None_spec : PathSpec :=
  Build_PathSpec TYPE_INDICATOR_SQLITE_BLOB (PyPathSpec os_spec)
    (<["row_index" := PyNone]> (attrs blob_table_spec)).

(** Row 0 and row 3 of the table. *)
Definition blob_row0_spec : PathSpec :=
  Build_PathSpec TYPE_INDICATOR_SQLITE_BLOB (PyPathSpec os_spec)
    (<["row_index" := PyInt 0]> (attrs blob_table_spec)).
Definition blob_row3_spec : PathSpec :=
  Build_PathSpec TYPE_INDICATOR_SQLITE_BLOB (PyPathSpec os_spec)
    (<["row_index" := PyInt 3]> (attrs blob_table_spec)).

(** An encrypted volume on the image, without and with a password hint. *)
Definition fvde_spec : PathSpec :=
  Build_PathSpec TYPE_INDICATOR_FVDE (PyPathSpec os_spec) ∅.
Definition fvde_password_spec : PathSpec :=
  Build_PathSpec TYPE_INDICATOR_FVDE (PyPathSpec os_spec)
    (<["password" := PyStr "fvde-TEST"]> ∅).

(** Collaborators that never fail: handles are numbered by the length of
    the history, every table has 42 rows, and the key chain call returns
    [credentials]. *)
Definition env_returning (credentials : pyval) : Env :=
  Build_Env
    (fun h _ _ => Return (length h))
    (fun _ _ => Return tt)
    (fun _ _ => Return 42%Z)
    (fun _ _ => Return credentials)
    (fun h => Return (length h))
    (fun _ _ _ _ => Return tt).

Definition env_ok : Env := env_returning PyNone.

(** Every [close()] fails. *)
Definition env_close_fails : Env :=
  Build_Env (OpenFileObject env_ok)
    (fun _ _ => Raise (IOError "close failed"))
    (file_GetNumberOfRows env_ok) (ExtractCredentialsFromPathSpec env_ok)
    (pyfvde_volume env_ok) (FVDEVolumeOpen env_ok).

(** The resolver refuses access to whatever is opened. *)
Definition env_access_denied : Env :=
  Build_Env (fun _ _ _ => Raise (AccessError "denied"))
    (close env_ok)
    (file_GetNumberOfRows env_ok) (ExtractCredentialsFromPathSpec env_ok)
    (pyfvde_volume env_ok) (FVDEVolumeOpen env_ok).

(** The volume cannot be unlocked. *)
Definition env_wrong_key : Env :=
  Build_Env (OpenFileObject env_ok) (close env_ok)
    (file_GetNumberOfRows env_ok) (ExtractCredentialsFromPathSpec env_ok)
    (pyfvde_volume env_ok)
    (fun _ _ _ _ => Raise (AccessError "unable to unlock volume")).

(** Fresh instances, as their constructors leave them. *)
Definition sqlite_fs : sqlite_blob_file_system.SQLiteBlobFileSystem :=
  sqlite_blob_file_system.__init__ 1 7.
Definition fvde_fs : fvde_file_system.FVDEFileSystem :=
  fvde_file_system.__init__ 2 7.

(** The instances after a successful [Open]. *)
Definition sqlite_fs_open : sqlite_blob_file_system.SQLiteBlobFileSystem :=
  snd (snd (sqlite_blob_file_system.Open env_ok blob_table_spec "rb"
              ([], sqlite_fs))).
Definition fvde_fs_open : fvde_file_system.FVDEFileSystem :=
  snd (snd (fvde_file_system.Open env_ok fvde_spec "rb" ([], fvde_fs))).

End examples.

(* ===================================================================== *)
(** ** Closing the FVDE file system *)
(* ===================================================================== *)

Module fvde_close.
Import fvde_file_system.

(** [_Close] calls [close()] on the volume, which no other method does: its
    history holds the calls of the other methods and this one. *)
Inductive close_call : Type :=
| earlier (c : call)
| call_volume_close (fvde_volume : volume).

(** How the volume and the file-like object answer a [close()], given
    everything that was called before. *)
Record CloseEnv : Type := Build_CloseEnv {
  (** [fvde_volume.close()] *)
  volume_close : list close_call -> volume -> result unit;
  (** [file_object.close()] *)
  file_close : list close_call -> file_object -> result unit
}.

(** [_Close(self)]: the volume first, then the file object; each field is
    cleared right after its object is closed. *)
Definition _Close (env : CloseEnv) (st : list close_call * FVDEFileSystem)
    : result unit * (list close_call * FVDEFileSystem) :=
  let h := fst st in
  let s := snd st in
  match _fvde_volume s with
  | None => (Raise (AttributeError "close"), (h, s))
  | Some v =>
      let h1 := h ++ [call_volume_close v] in
      match volume_close env h v with
      | Raise e => (Raise e, (h1, s))
      | Return _ =>
          let s1 := set_fvde_volume None s in
          match _file_object s1 with
          | None => (Raise (AttributeError "close"), (h1, s1))
          | Some fo =>
              let h2 := h1 ++ [earlier (call_close fo)] in
              match file_close env h1 fo with
              | Raise e => (Raise e, (h2, s1))
              | Return _ => (Return tt, (h2, set_file_object None s1))
              end
          end
      end
  end.

End fvde_close.

(** Further concrete inputs. *)
Module more_examples.
Import path examples.

(** The table cannot be counted: [GetNumberOfRows()] of the file object
    fails. *)
Definition env_rows_fail : Env :=
  Build_Env (OpenFileObject env_ok) (close env_ok)
    (fun _ _ => Raise (IOError "unable to count rows"))
    (ExtractCredentialsFromPathSpec env_ok)
    (pyfvde_volume env_ok) (FVDEVolumeOpen env_ok).

(** The table file system with the count of 42 rows stored. *)
Definition sqlite_fs_counted : sqlite_blob_file_system.SQLiteBlobFileSystem :=
  sqlite_blob_file_system.set_number_of_rows (Some 42%Z) sqlite_fs_open.

(** Both [close()] calls of the FVDE file system return. *)
Definition close_env_ok : fvde_close.CloseEnv :=
  fvde_close.Build_CloseEnv (fun _ _ => Return tt) (fun _ _ => Return tt).

(** The volume cannot be closed at the first attempt (when nothing was
    called before), and can afterwards. *)
Definition close_env_volume_busy : fvde_close.CloseEnv :=
  fvde_close.Build_CloseEnv
    (fun h _ => match h with
                | [] => Raise (IOError "unable to close volume")
                | _ => Return tt
                end)
    (fun _ _ => Return tt).

(** The file object under the volume cannot be closed. *)
Definition close_env_file_fails : fvde_close.CloseEnv :=
  fvde_close.Build_CloseEnv
    (fun _ _ => Return tt)
    (fun _ _ => Raise (IOError "unable to close file")).

(** [FakePathSpec(location=u'/', parent=u'')] *)
Definition kwargs_with_empty_parent : gmap string pyval :=
  <["parent" := PyStr ""]> (<["inode" := PyInt 5]> ∅).

End more_examples.

(* ===================================================================== *)
(** ** Properties *)
(* ===================================================================== *)

Import path examples.

(** The plumbing of method bodies behaves as sequencing should. *)
Section MonadFacts.
Context {S A B C : Type}.

Lemma bind_ret (a : A) (k : A -> M S B) (st : list call * S) :
  bind (ret a) k st = k a st.
Proof. reflexivity. Qed.

Lemma bind_raise (e : exc) (k : A -> M S B) (st : list call * S) :
  bind (raise e) k st = raise e st.
Proof. reflexivity. Qed.

Lemma bind_assoc (m : M S A) (k : A -> M S B) (k' : B -> M S C)
    (st : list call * S) :
  bind (bind m k) k' st = bind m (fun a => bind (k a) k') st.
Proof. unfold bind. destruct (m st) as [[a|e] st']; reflexivity. Qed.

(** A call on a collaborator never touches the fields of [self]. *)
Lemma external_fields (c : call) (answer : list call -> result A)
    (st : list call * S) :
  snd (snd (external c answer st)) = snd st /\
  fst (snd (external c answer st)) = fst st ++ [c].
Proof. split; reflexivity. Qed.

End MonadFacts.

Section ExceptionFacts.
Variable msg : string.

Lemma in_taxonomy_PathSpecError : in_taxonomy (PathSpecError msg) = true.
Proof. reflexivity. Qed.

Lemma in_taxonomy_AccessError : in_taxonomy (AccessError msg) = true.
Proof. reflexivity. Qed.

Lemma in_taxonomy_IOError : in_taxonomy (IOError msg) = true.
Proof. reflexivity. Qed.

Lemma in_taxonomy_ValueError : in_taxonomy (ValueError msg) = true.
Proof. reflexivity. Qed.

Lemma in_taxonomy_AttributeError : in_taxonomy (AttributeError msg) = false.
Proof. reflexivity. Qed.

(** The taxonomy is exactly the four classes named by the [except] clause,
    subclasses included. *)
Lemma in_taxonomy_spec (e : exc) :
  in_taxonomy e = true <->
  isinstance e "AccessError" = true \/ isinstance e "PathSpecError" = true \/
  isinstance e "IOError" = true \/ isinstance e "ValueError" = true.
Proof.
  unfold in_taxonomy, existence_errors. simpl.
  rewrite !orb_true_iff. intuition discriminate.
Qed.

Lemma ValueError_not_PathSpecError :
  isinstance (ValueError msg) "PathSpecError" = false.
Proof. reflexivity. Qed.

End ExceptionFacts.

Module sqlite := sqlite_blob_file_system.
Module fvde := fvde_file_system.

(* --------------------------------------------------------------------- *)
(** *** The existence check of the SQLite blob file system *)
(* --------------------------------------------------------------------- *)

(** The check written out by the outcome of the open and of the close. *)
Lemma FileEntryExistsByPathSpec_eq (env : Env) (path_spec : PathSpec)
    (h : list call) (fs : sqlite.SQLiteBlobFileSystem) :
  let ctx := sqlite._resolver_context fs in
  let h_opened := (h ++ [call_OpenFileObject (PyPathSpec path_spec) ctx])%list in
  sqlite.FileEntryExistsByPathSpec env path_spec (h, fs) =
  match OpenFileObject env h (PyPathSpec path_spec) ctx with
  | Raise e =>
      (if in_taxonomy e then Return false else Raise e, (h_opened, fs))
  | Return fo =>
      (match close env h_opened fo with
       | Return _ => Return true
       | Raise e => Raise e
       end, ((h_opened ++ [call_close fo])%list, fs))
  end.
Proof.
  intros ctx h_opened.
  unfold sqlite.FileEntryExistsByPathSpec, bind, get_self, try_except,
    external, ret, in_taxonomy.
  cbn [fst snd]. fold ctx. fold h_opened.
  destruct (OpenFileObject env h (PyPathSpec path_spec) ctx) as [fo|e].
  - destruct (close env h_opened fo); reflexivity.
  - destruct (existsb (isinstance e) existence_errors); reflexivity.
Qed.

(** C1 (as amended).  [FileEntryExistsByPathSpec] returns false exactly when
    the open raises an instance of AccessError, PathSpecError, IOError or
    ValueError; it returns true exactly when the open succeeds and the
    [close()] of the opened file object returns; an exception of the open
    outside the four classes, and an exception of that [close()], reach the
    caller unchanged; the fields of the file system are left as they were. *)
Theorem C1_FileEntryExistsByPathSpec_outcomes
    (env : Env) (path_spec : PathSpec) (h : list call)
    (fs : sqlite.SQLiteBlobFileSystem) :
  let ctx := sqlite._resolver_context fs in
  let opened := OpenFileObject env h (PyPathSpec path_spec) ctx in
  let h_opened := (h ++ [call_OpenFileObject (PyPathSpec path_spec) ctx])%list in
  let r := sqlite.FileEntryExistsByPathSpec env path_spec (h, fs) in
  (fst r = Return false <-> exists e, opened = Raise e /\ in_taxonomy e = true) /\
  (fst r = Return true <->
     exists fo, opened = Return fo /\ close env h_opened fo = Return tt) /\
  (forall e, opened = Raise e -> in_taxonomy e = false -> fst r = Raise e) /\
  (forall fo e, opened = Return fo -> close env h_opened fo = Raise e ->
     fst r = Raise e) /\
  snd (snd r) = fs.
Proof.
  intros ctx opened h_opened r. subst r.
  rewrite FileEntryExistsByPathSpec_eq.
  fold ctx. fold opened. fold h_opened.
  destruct opened as [fo|e] eqn:Hopen; cbn [fst snd].
  - destruct (close env h_opened fo) as [[]|ec] eqn:Hclose.
    + repeat split; try discriminate; eauto;
        try (intros (? & ? & ?); congruence); intros; congruence.
    + repeat split; try discriminate;
        try (intros (? & ? & ?); congruence); intros; congruence.
  - destruct (in_taxonomy e) eqn:Htax.
    + repeat split; try discriminate; eauto;
        try (intros (? & ? & ?); congruence); intros; congruence.
    + repeat split; try discriminate;
        try (intros (? & ? & ?); congruence); intros; congruence.
Qed.

(** C1 (counterexample).  The open of row 0 succeeds, every [close()] fails
    with an IOError: the check does not return true, it raises. *)
Lemma C1_open_succeeds_close_raises :
  OpenFileObject env_close_fails [] (PyPathSpec blob_row0_spec) 7 = Return 0 /\
  fst (sqlite.FileEntryExistsByPathSpec env_close_fails blob_row0_spec
         ([], sqlite_fs_open))
  = Raise (IOError "close failed").
Proof. split; reflexivity. Qed.

(** C1 (witness): the resolver refuses access, the check answers false. *)
Lemma C1_witness_access_denied :
  fst (sqlite.FileEntryExistsByPathSpec env_access_denied blob_row0_spec
         ([], sqlite_fs_open)) = Return false.
Proof.
  apply (proj1 (C1_FileEntryExistsByPathSpec_outcomes env_access_denied
                  blob_row0_spec [] sqlite_fs_open)).
  exists (AccessError "denied"). split; reflexivity.
Defined.

(* --------------------------------------------------------------------- *)
(** *** Opening a file system *)
(* --------------------------------------------------------------------- *)

(** Without a parent neither history nor fields change (FVDE). *)
Lemma fvde_Open_without_parent (env : Env) (path_spec : PathSpec)
    (mode : string) (st : list call * fvde.FVDEFileSystem) :
  HasParent path_spec = false ->
  fvde._Open env path_spec mode st =
  (Raise (PathSpecError "Unsupported path specification without parent."), st).
Proof. intros Hp. unfold fvde._Open. rewrite Hp. reflexivity. Qed.

(** Without a parent neither history nor fields change (SQLite blob). *)
Lemma sqlite_Open_without_parent (env : Env) (path_spec : PathSpec)
    (mode : string) (st : list call * sqlite.SQLiteBlobFileSystem) :
  HasParent path_spec = false ->
  sqlite._Open env path_spec mode st =
  (Raise (PathSpecError "Unsupported path specification without parent."), st).
Proof. intros Hp. unfold sqlite._Open. rewrite Hp. reflexivity. Qed.

(** C5.  For a path specification without a parent, [_Open] of the FVDE and
    of the SQLite blob file system raise PathSpecError; no collaborator has
    been called (the history is unchanged, so no parent file object was
    opened) and no field of the instance has been assigned. *)
Theorem C5_Open_without_parent_fails_first
    (env : Env) (path_spec : PathSpec) (mode : string) (h : list call)
    (fs_fvde : fvde.FVDEFileSystem) (fs_sqlite : sqlite.SQLiteBlobFileSystem) :
  HasParent path_spec = false ->
  (exists e, fvde._Open env path_spec mode (h, fs_fvde) = (Raise e, (h, fs_fvde))
             /\ isinstance e "PathSpecError" = true) /\
  (exists e, sqlite._Open env path_spec mode (h, fs_sqlite) = (Raise e, (h, fs_sqlite))
             /\ isinstance e "PathSpecError" = true).
Proof.
  intros Hp. split; eexists; split.
  - apply fvde_Open_without_parent, Hp.
  - reflexivity.
  - apply sqlite_Open_without_parent, Hp.
  - reflexivity.
Qed.

(** C5 (witness): the raw image file has no parent. *)
Lemma C5_witness :
  HasParent os_spec = false /\
  (exists e, fvde._Open env_ok os_spec "rb" ([], fvde_fs) = (Raise e, ([], fvde_fs))
             /\ isinstance e "PathSpecError" = true) /\
  (exists e, sqlite._Open env_ok os_spec "rb" ([], sqlite_fs) = (Raise e, ([], sqlite_fs))
             /\ isinstance e "PathSpecError" = true).
Proof.
  split; [reflexivity|].
  apply (C5_Open_without_parent_fails_first env_ok os_spec "rb" [] fvde_fs sqlite_fs).
  reflexivity.
Defined.

(** C2.  When [_Open] of the FVDE file system has opened the parent file
    object and the unlock of the volume raises [e], the last call made is
    [close()] on that file object, an exception reaches the caller ([e]
    itself when the close returns, the exception of the close otherwise)
    and the fields of the instance are what they were: [_fvde_volume] and
    [_file_object] are not assigned. *)
Theorem C2_Open_unlock_failure_closes_parent
    (env : Env) (path_spec : PathSpec) (mode : string) (h : list call)
    (fs : fvde.FVDEFileSystem) (credentials : pyval) (v : volume)
    (fo : file_object) (e : exc) :
  let ctx := fvde._resolver_context fs in
  let h1 := (h ++ [call_ExtractCredentialsFromPathSpec path_spec])%list in
  let h2 := (h1 ++ [call_pyfvde_volume])%list in
  let h3 := (h2 ++ [call_OpenFileObject (parent path_spec) ctx])%list in
  let h4 := (h3 ++ [call_FVDEVolumeOpen v path_spec fo])%list in
  HasParent path_spec = true ->
  ExtractCredentialsFromPathSpec env h path_spec = Return credentials ->
  pyfvde_volume env h1 = Return v ->
  OpenFileObject env h2 (parent path_spec) ctx = Return fo ->
  FVDEVolumeOpen env h3 v path_spec fo = Raise e ->
  fvde._Open env path_spec mode (h, fs) =
  (Raise (match close env h4 fo with Return _ => e | Raise e' => e' end),
   ((h4 ++ [call_close fo])%list, fs)).
Proof.
  intros ctx h1 h2 h3 h4 Hp Hcred Hvol Hopen Hunlock.
  unfold fvde._Open. rewrite Hp. cbn [negb].
  unfold bind, get_self, external, try_except_reraise, set_self.
  cbn [fst snd].
  fold ctx. fold h1. rewrite Hcred. fold h2. rewrite Hvol.
  fold h3. rewrite Hopen. fold h4. rewrite Hunlock.
  destruct (close env h4 fo); reflexivity.
Qed.

(** C2 (witness): the volume cannot be unlocked; the parent file object 2
    is closed and the AccessError reaches the caller. *)
Lemma C2_witness :
  fvde._Open env_wrong_key fvde_spec "rb" ([], fvde_fs) =
  (Raise (AccessError "unable to unlock volume"),
   ([call_ExtractCredentialsFromPathSpec fvde_spec; call_pyfvde_volume;
     call_OpenFileObject (PyPathSpec os_spec) 7;
     call_FVDEVolumeOpen 1 fvde_spec 2; call_close 2], fvde_fs)).
Proof.
  apply (C2_Open_unlock_failure_closes_parent env_wrong_key fvde_spec "rb" []
           fvde_fs PyNone 1 2 (AccessError "unable to unlock volume"));
    reflexivity.
Defined.

(** [_Open] of the FVDE file system never looks at the value returned by
    the key chain. *)
Lemma fvde_Open_replace_credentials (f : pyval -> pyval) (env : Env)
    (path_spec : PathSpec) (mode : string)
    (st : list call * fvde.FVDEFileSystem) :
  fvde._Open (replace_credentials f env) path_spec mode st =
  fvde._Open env path_spec mode st.
Proof.
  unfold fvde._Open. destruct (negb (HasParent path_spec)); [reflexivity|].
  unfold bind, get_self, external, try_except_reraise, set_self.
  cbn [fst snd replace_credentials ExtractCredentialsFromPathSpec
       pyfvde_volume OpenFileObject FVDEVolumeOpen close].
  destruct (ExtractCredentialsFromPathSpec env (fst st) path_spec); reflexivity.
Qed.

(** The calls [_Open] of the FVDE file system adds to the history: when the
    unlock is among them, it is the fourth, after the key chain call, the
    creation of the volume and the open of the parent, which all returned;
    it is given that volume, the path specification and that file object. *)
Lemma fvde_Open_calls (env : Env) (path_spec : PathSpec) (mode : string)
    (h : list call) (fs : fvde.FVDEFileSystem) :
  let ctx := fvde._resolver_context fs in
  let h1 := (h ++ [call_ExtractCredentialsFromPathSpec path_spec])%list in
  let h2 := (h1 ++ [call_pyfvde_volume])%list in
  exists l : list call,
    fst (snd (fvde._Open env path_spec mode (h, fs))) = (h ++ l)%list /\
    forall v p fo, In (call_FVDEVolumeOpen v p fo) l ->
      p = path_spec /\
      (exists credentials,
         ExtractCredentialsFromPathSpec env h path_spec = Return credentials) /\
      pyfvde_volume env h1 = Return v /\
      OpenFileObject env h2 (parent path_spec) ctx = Return fo /\
      exists rest,
        l = [call_ExtractCredentialsFromPathSpec path_spec; call_pyfvde_volume;
             call_OpenFileObject (parent path_spec) ctx;
             call_FVDEVolumeOpen v path_spec fo] ++ rest.
Proof.
  intros ctx h1 h2.
  unfold fvde._Open. destruct (negb (HasParent path_spec)).
  { exists []. split; [symmetry; apply app_nil_r | intros ? ? ? []]. }
  unfold bind, get_self, external, try_except_reraise, set_self.
  cbn [fst snd]. fold ctx. fold h1.
  destruct (ExtractCredentialsFromPathSpec env h path_spec) as [cr|e1] eqn:Hcr.
  2:{ eexists. split; [reflexivity|].
      intros v p fo [H|[]]; discriminate. }
  fold h2.
  destruct (pyfvde_volume env h1) as [v0|e2] eqn:Hvol.
  2:{ eexists. cbn [fst snd]. unfold h2, h1. rewrite <- app_assoc.
      split; [reflexivity|].
      simpl. intros v p fo H.
      repeat (destruct H as [H|H]; try discriminate); contradiction. }
  destruct (OpenFileObject env h2 (parent path_spec) ctx) as [fo0|e3] eqn:Hopen.
  2:{ eexists. cbn [fst snd]. unfold h2, h1. rewrite <- !app_assoc.
      split; [reflexivity|].
      simpl. intros v p fo H.
      repeat (destruct H as [H|H]; try discriminate); contradiction. }
  assert (Hin : forall rest v p fo,
            In (call_FVDEVolumeOpen v p fo)
               ([call_ExtractCredentialsFromPathSpec path_spec;
                 call_pyfvde_volume;
                 call_OpenFileObject (parent path_spec) ctx;
                 call_FVDEVolumeOpen v0 path_spec fo0] ++ rest) ->
            (forall c, In c rest -> c = call_close fo0) ->
            v = v0 /\ p = path_spec /\ fo = fo0).
  { intros rest v p fo H Hrest. simpl in H.
    repeat (destruct H as [H|H]; try discriminate).
    - inversion H. auto.
    - apply Hrest in H. discriminate. }
  destruct (FVDEVolumeOpen env _ v0 path_spec fo0) as [[]|e4].
  - exists ([call_ExtractCredentialsFromPathSpec path_spec; call_pyfvde_volume;
             call_OpenFileObject (parent path_spec) ctx;
             call_FVDEVolumeOpen v0 path_spec fo0] ++ []).
    cbn [fst snd]. unfold h2, h1. rewrite <- !app_assoc.
    split; [reflexivity|].
    intros v p fo H.
    destruct (Hin [] v p fo H) as (-> & -> & ->); [intros c []|].
    split; [reflexivity|]. split; [eauto|].
    split; [reflexivity|]. split; [reflexivity|]. exists []. reflexivity.
  - exists ([call_ExtractCredentialsFromPathSpec path_spec; call_pyfvde_volume;
             call_OpenFileObject (parent path_spec) ctx;
             call_FVDEVolumeOpen v0 path_spec fo0] ++ [call_close fo0]).
    split.
    + destruct (close env _ fo0) as [[]|e5]; cbn [fst snd];
        unfold h2, h1; rewrite <- !app_assoc; reflexivity.
    + intros v p fo H.
      destruct (Hin [call_close fo0] v p fo H) as (-> & -> & ->).
      { intros c [<-|[]]. reflexivity. }
      split; [reflexivity|]. split; [eauto|].
      split; [reflexivity|]. split; [reflexivity|].
      exists [call_close fo0]. reflexivity.
Qed.

(** C8 (as amended).  In every execution of [_Open] of the FVDE file system
    that attempts the unlock, the key chain's
    [ExtractCredentialsFromPathSpec(path_spec)] has been called (by [_Open]
    itself, as the first of its calls) and has returned before the unlock is
    attempted; the unlock is given the volume just created, the path
    specification and the parent file object just opened.  The value the
    key chain call returns is not passed on: replacing it by any other
    value changes neither the outcome, nor the calls and their arguments,
    nor the fields. *)
Theorem C8_credentials_extracted_before_unlock
    (env : Env) (path_spec : PathSpec) (mode : string) (h : list call)
    (fs : fvde.FVDEFileSystem) :
  let ctx := fvde._resolver_context fs in
  let h1 := (h ++ [call_ExtractCredentialsFromPathSpec path_spec])%list in
  let h2 := (h1 ++ [call_pyfvde_volume])%list in
  (exists l : list call,
     fst (snd (fvde._Open env path_spec mode (h, fs))) = (h ++ l)%list /\
     forall v p fo, In (call_FVDEVolumeOpen v p fo) l ->
       p = path_spec /\
       (exists credentials,
          ExtractCredentialsFromPathSpec env h path_spec = Return credentials) /\
       pyfvde_volume env h1 = Return v /\
       OpenFileObject env h2 (parent path_spec) ctx = Return fo /\
       exists rest,
         l = [call_ExtractCredentialsFromPathSpec path_spec; call_pyfvde_volume;
              call_OpenFileObject (parent path_spec) ctx;
              call_FVDEVolumeOpen v path_spec fo] ++ rest) /\
  (forall f : pyval -> pyval,
     fvde._Open (replace_credentials f env) path_spec mode (h, fs) =
     fvde._Open env path_spec mode (h, fs)).
Proof.
  intros ctx h1 h2. split.
  - apply fvde_Open_calls.
  - intros f. apply fvde_Open_replace_credentials.
Qed.

(** C8 (counterexample).  Two runs that differ only in the value the key
    chain call returns (a password, [None]): [_Open], whose arguments are
    the path specification and the mode, makes the key chain call itself,
    and the unlock receives the volume 1, the path specification and the
    file object 2 in both runs. *)
Lemma C8_returned_credentials_not_passed :
  ExtractCredentialsFromPathSpec (env_returning (PyStr "fvde-TEST")) []
    fvde_password_spec = Return (PyStr "fvde-TEST") /\
  ExtractCredentialsFromPathSpec (env_returning PyNone) []
    fvde_password_spec = Return PyNone /\
  fvde._Open (env_returning (PyStr "fvde-TEST")) fvde_password_spec "rb"
    ([], fvde_fs) =
  fvde._Open (env_returning PyNone) fvde_password_spec "rb" ([], fvde_fs) /\
  fst (snd (fvde._Open (env_returning (PyStr "fvde-TEST")) fvde_password_spec
              "rb" ([], fvde_fs))) =
  [call_ExtractCredentialsFromPathSpec fvde_password_spec; call_pyfvde_volume;
   call_OpenFileObject (PyPathSpec os_spec) 7;
   call_FVDEVolumeOpen 1 fvde_password_spec 2].
Proof. repeat split; reflexivity. Qed.

(* --------------------------------------------------------------------- *)
(** *** File entries of the SQLite blob file system *)
(* --------------------------------------------------------------------- *)

(** [getattr(spec, name, None) is None] holds for an attribute that is not
    set and for one that is set to [None], and for no other. *)
Lemma getattr_default_is_None (p : PathSpec) (name : string) :
  is_None (getattr_default p name) = true <-> absent_or_None (attrs p !! name).
Proof.
  unfold getattr_default, absent_or_None.
  destruct (attrs p !! name) as [v|]; simpl.
  - split.
    + destruct v; simpl; intros H; try discriminate. right. reflexivity.
    + intros [H|H]; [discriminate|]. inversion H. reflexivity.
  - split; auto.
Qed.

(** The entry is decided by the two probes alone. *)
Lemma sqlite_GetFileEntryByPathSpec_eq (path_spec : PathSpec)
    (st : list call * sqlite.SQLiteBlobFileSystem) :
  sqlite.GetFileEntryByPathSpec path_spec st =
  (Return
     (if is_None (getattr_default path_spec "row_index")
         && is_None (getattr_default path_spec "row_condition")
      then SQLiteBlobFileEntry (sqlite._resolver_context (snd st))
             (sqlite.self (snd st)) path_spec (Some true) (Some true)
      else SQLiteBlobFileEntry (sqlite._resolver_context (snd st))
             (sqlite.self (snd st)) path_spec None None), st).
Proof.
  unfold sqlite.GetFileEntryByPathSpec, bind, get_self, ret.
  destruct (is_None (getattr_default path_spec "row_index")
            && is_None (getattr_default path_spec "row_condition"));
    reflexivity.
Qed.

(** C3 (as amended).  [GetFileEntryByPathSpec] of the SQLite blob file
    system returns an entry for the given path specification that is both
    root and virtual exactly when [getattr(spec, 'row_index', None)] and
    [getattr(spec, 'row_condition', None)] are both [None] (the attribute
    is not set, or is set to [None]), and an entry that is neither root nor
    virtual otherwise; the decision probes these two attributes and does
    not depend on the type indicator of the path specification. *)
Theorem C3_GetFileEntryByPathSpec_probes_attributes
    (path_spec : PathSpec) (h : list call) (fs : sqlite.SQLiteBlobFileSystem) :
  exists entry,
    sqlite.GetFileEntryByPathSpec path_spec (h, fs) = (Return entry, (h, fs)) /\
    entry_path_spec entry = path_spec /\
    is_virtual entry = is_root entry /\
    (is_root entry = true <->
       absent_or_None (attrs path_spec !! "row_index") /\
       absent_or_None (attrs path_spec !! "row_condition")) /\
    (forall tag, exists entry',
       sqlite.GetFileEntryByPathSpec
         (Build_PathSpec tag (parent path_spec) (attrs path_spec)) (h, fs)
       = (Return entry', (h, fs)) /\
       is_root entry' = is_root entry /\ is_virtual entry' = is_virtual entry).
Proof.
  eexists. split; [apply sqlite_GetFileEntryByPathSpec_eq|].
  cbn [fst snd].
  pose proof (getattr_default_is_None path_spec "row_index") as Hi.
  pose proof (getattr_default_is_None path_spec "row_condition") as Hc.
  assert (Htag : forall tag name,
            getattr_default (Build_PathSpec tag (parent path_spec)
                               (attrs path_spec)) name
            = getattr_default path_spec name) by reflexivity.
  destruct (is_None (getattr_default path_spec "row_index")) eqn:Ei;
    destruct (is_None (getattr_default path_spec "row_condition")) eqn:Ec;
    cbn [andb SQLiteBlobFileEntry entry_path_spec is_root is_virtual default].
  all: split; [reflexivity|]; split; [reflexivity|]; split.
  all: try (intros tag; eexists;
            split; [apply sqlite_GetFileEntryByPathSpec_eq|];
            rewrite !Htag, Ei, Ec; split; reflexivity).
  - split; [intros _; split; [apply Hi|apply Hc]; reflexivity | reflexivity].
  - split; [discriminate|]. intros [_ H]. apply Hc in H. discriminate.
  - split; [discriminate|]. intros [H _]. apply Hi in H. discriminate.
  - split; [discriminate|]. intros [H _]. apply Hi in H. discriminate.
Qed.

(** C3 (counterexample).  A path specification that carries a [row_index]
    attribute (set to [None]) gets the root entry; and the type indicator
    does not decide: two path specifications of type SQLITE_BLOB get a root
    and a leaf entry, and a path specification of another type (the raw
    image file) gets a root entry of the SQLite blob file system. *)
Lemma C3_decision_probes_attribute_values :
  attrs blob_row_None_spec !! "row_index" = Some PyNone /\
  fst (sqlite.GetFileEntryByPathSpec blob_row_None_spec ([], sqlite_fs_open))
  = Return (SQLiteBlobFileEntry 7 1 blob_row_None_spec (Some true) (Some true)) /\
  type_indicator blob_table_spec = type_indicator blob_row3_spec /\
  fst (sqlite.GetFileEntryByPathSpec blob_table_spec ([], sqlite_fs_open))
  = Return (SQLiteBlobFileEntry 7 1 blob_table_spec (Some true) (Some true)) /\
  fst (sqlite.GetFileEntryByPathSpec blob_row3_spec ([], sqlite_fs_open))
  = Return (SQLiteBlobFileEntry 7 1 blob_row3_spec None None) /\
  type_indicator os_spec = "OS" /\
  fst (sqlite.GetFileEntryByPathSpec os_spec ([], sqlite_fs_open))
  = Return (SQLiteBlobFileEntry 7 1 os_spec (Some true) (Some true)).
Proof. repeat split; reflexivity. Qed.

(** C10.  The probe is a comparison with [None], not a truth test.  A path
    specification whose [row_index] is 0 gets a leaf entry, neither root
    nor virtual, and so does every [row_index] or [row_condition] that is
    set to a value other than [None], also one that counts as false (0, an
    empty string, [False], an empty tuple).  The root entry, both root and
    virtual, is returned when, and only when, each of the two attributes is
    not set or is set to [None]. *)
Theorem C10_row_index_zero_is_leaf
    (path_spec : PathSpec) (h : list call) (fs : sqlite.SQLiteBlobFileSystem) :
  let leaf := SQLiteBlobFileEntry (sqlite._resolver_context fs)
                (sqlite.self fs) path_spec None None in
  let root := SQLiteBlobFileEntry (sqlite._resolver_context fs)
                (sqlite.self fs) path_spec (Some true) (Some true) in
  let r := sqlite.GetFileEntryByPathSpec path_spec (h, fs) in
  (is_root leaf = false /\ is_virtual leaf = false /\
   is_root root = true /\ is_virtual root = true) /\
  (attrs path_spec !! "row_index" = Some (PyInt 0) ->
     truthy (PyInt 0) = false /\ r = (Return leaf, (h, fs))) /\
  (forall v, attrs path_spec !! "row_index" = Some v -> is_None v = false ->
     r = (Return leaf, (h, fs))) /\
  (forall v, attrs path_spec !! "row_condition" = Some v -> is_None v = false ->
     r = (Return leaf, (h, fs))) /\
  (absent_or_None (attrs path_spec !! "row_index") ->
   absent_or_None (attrs path_spec !! "row_condition") ->
     r = (Return root, (h, fs))) /\
  (forall entry, fst r = Return entry -> is_root entry = true ->
     absent_or_None (attrs path_spec !! "row_index") /\
     absent_or_None (attrs path_spec !! "row_condition")).
Proof.
  intros leaf root r.
  pose proof (getattr_default_is_None path_spec "row_index") as Hi.
  pose proof (getattr_default_is_None path_spec "row_condition") as Hc.
  assert (Hr : r = (Return
                      (if is_None (getattr_default path_spec "row_index")
                          && is_None (getattr_default path_spec "row_condition")
                       then root else leaf), (h, fs)))
    by (subst r; apply sqlite_GetFileEntryByPathSpec_eq).
  assert (Hset : forall name v, attrs path_spec !! name = Some v ->
                   is_None (getattr_default path_spec name) = is_None v).
  { intros name v Hv. unfold getattr_default. rewrite Hv. reflexivity. }
  split; [repeat split; reflexivity|].
  split; [|split; [|split; [|split]]].
  - intros H0. split; [reflexivity|].
    rewrite Hr, (Hset _ _ H0). reflexivity.
  - intros v Hv Hn. rewrite Hr, (Hset _ _ Hv), Hn. reflexivity.
  - intros v Hv Hn. rewrite Hr, (Hset _ _ Hv), Hn, andb_false_r. reflexivity.
  - intros Hai Hac. apply Hi in Hai. apply Hc in Hac.
    rewrite Hr, Hai, Hac. reflexivity.
  - rewrite Hr. cbn [fst].
    intros entry Hentry Hroot.
    destruct (is_None (getattr_default path_spec "row_index")) eqn:Ei;
      destruct (is_None (getattr_default path_spec "row_condition")) eqn:Ec;
      cbn [andb] in Hentry; inversion Hentry; subst entry;
      try discriminate Hroot.
    split; [apply Hi | apply Hc]; reflexivity.
Qed.

(** C10 (witness): row 0 of the table gets the leaf entry; the table
    without a row, and the table with [row_index=None], get the root
    entry. *)
Lemma C10_witness :
  (truthy (PyInt 0) = false /\
   sqlite.GetFileEntryByPathSpec blob_row0_spec ([], sqlite_fs_open)
   = (Return (SQLiteBlobFileEntry 7 1 blob_row0_spec None None),
      ([], sqlite_fs_open))) /\
  sqlite.GetFileEntryByPathSpec blob_table_spec ([], sqlite_fs_open)
  = (Return (SQLiteBlobFileEntry 7 1 blob_table_spec (Some true) (Some true)),
     ([], sqlite_fs_open)) /\
  sqlite.GetFileEntryByPathSpec blob_row_None_spec ([], sqlite_fs_open)
  = (Return (SQLiteBlobFileEntry 7 1 blob_row_None_spec (Some true) (Some true)),
     ([], sqlite_fs_open)).
Proof.
  split; [|split].
  - apply (proj1 (proj2
      (C10_row_index_zero_is_leaf blob_row0_spec [] sqlite_fs_open))).
    reflexivity.
  - apply (proj1 (proj2 (proj2 (proj2 (proj2
      (C10_row_index_zero_is_leaf blob_table_spec [] sqlite_fs_open))))));
      left; reflexivity.
  - apply (proj1 (proj2 (proj2 (proj2 (proj2
      (C10_row_index_zero_is_leaf blob_row_None_spec [] sqlite_fs_open)))))).
    + right. reflexivity.
    + left. reflexivity.
Defined.

(* --------------------------------------------------------------------- *)
(** *** File entries of the FVDE file system *)
(* --------------------------------------------------------------------- *)

Lemma fvde_GetFileEntryByPathSpec_eq (path_spec : PathSpec)
    (st : list call * fvde.FVDEFileSystem) :
  fvde.GetFileEntryByPathSpec path_spec st =
  (Return (FVDEFileEntry (fvde._resolver_context (snd st)) (fvde.self (snd st))
             path_spec (Some true) (Some true)), st).
Proof. reflexivity. Qed.

(** C6 (as amended).  For every pair of path specifications, whether or not
    their parent chains match the defining chain, [GetFileEntryByPathSpec]
    of the FVDE file system returns entries with [is_root] and [is_virtual]
    true, of the same class, resolver context and file system; each entry
    keeps the path specification it was asked for, so the two entries are
    the same only when the two path specifications are. *)
Theorem C6_GetFileEntryByPathSpec_virtual_root
    (spec1 spec2 : PathSpec) (h : list call) (fs : fvde.FVDEFileSystem) :
  exists entry1 entry2,
    fvde.GetFileEntryByPathSpec spec1 (h, fs) = (Return entry1, (h, fs)) /\
    fvde.GetFileEntryByPathSpec spec2 (h, fs) = (Return entry2, (h, fs)) /\
    is_root entry1 = true /\ is_virtual entry1 = true /\
    is_root entry2 = true /\ is_virtual entry2 = true /\
    entry_class entry1 = entry_class entry2 /\
    entry_resolver_context entry1 = entry_resolver_context entry2 /\
    entry_file_system entry1 = entry_file_system entry2 /\
    entry_path_spec entry1 = spec1 /\ entry_path_spec entry2 = spec2 /\
    (entry1 = entry2 <-> spec1 = spec2).
Proof.
  eexists _, _.
  split; [apply fvde_GetFileEntryByPathSpec_eq|].
  split; [apply fvde_GetFileEntryByPathSpec_eq|].
  cbn [fst snd]. repeat (split; [reflexivity|]).
  split.
  - intros H. apply (f_equal entry_path_spec) in H. exact H.
  - intros ->. reflexivity.
Qed.

(** C6 (counterexample).  The file system is open on the encrypted volume of
    the image; two path specifications with that same parent, one with a
    password hint, get two different entries. *)
Lemma C6_entries_differ_with_the_input :
  fvde._path_spec fvde_fs_open = Some fvde_spec /\
  parent fvde_spec = PyPathSpec os_spec /\
  parent fvde_password_spec = PyPathSpec os_spec /\
  fst (fvde.GetFileEntryByPathSpec fvde_password_spec ([], fvde_fs_open))
  = Return (FVDEFileEntry 7 2 fvde_password_spec (Some true) (Some true)) /\
  fst (fvde.GetFileEntryByPathSpec fvde_spec ([], fvde_fs_open))
  = Return (FVDEFileEntry 7 2 fvde_spec (Some true) (Some true)) /\
  fst (fvde.GetFileEntryByPathSpec fvde_password_spec ([], fvde_fs_open))
  <> fst (fvde.GetFileEntryByPathSpec fvde_spec ([], fvde_fs_open)).
Proof.
  repeat (split; [reflexivity|]).
  rewrite !fvde_GetFileEntryByPathSpec_eq. cbn [fst snd].
  intros H.
  apply (f_equal (fun r => match r with
                           | Return e => attrs (entry_path_spec e) !! "password"
                           | Raise _ => None
                           end)) in H.
  vm_compute in H. discriminate H.
Qed.

(* --------------------------------------------------------------------- *)
(** *** Root entries *)
(* --------------------------------------------------------------------- *)

(** A successful [Open] leaves the instance with its defining path
    specification, which has a parent (SQLite blob). *)
Lemma sqlite_Open_defining (env : Env) (path_spec : PathSpec) (mode : string)
    (st st' : list call * sqlite.SQLiteBlobFileSystem) :
  sqlite.Open env path_spec mode st = (Return tt, st') ->
  sqlite._path_spec (snd st') = Some path_spec /\ HasParent path_spec = true.
Proof.
  unfold sqlite.Open, sqlite._Open, bind.
  destruct (HasParent path_spec) eqn:Hp; cbn [negb].
  - unfold get_self, external, set_self. cbn [fst snd].
    destruct (OpenFileObject env _ _ _); [|discriminate].
    intros H. inversion H. split; reflexivity.
  - unfold raise. discriminate.
Qed.

(** A successful [Open] leaves the instance with its defining path
    specification, which has a parent (FVDE). *)
Lemma fvde_Open_defining (env : Env) (path_spec : PathSpec) (mode : string)
    (st st' : list call * fvde.FVDEFileSystem) :
  fvde.Open env path_spec mode st = (Return tt, st') ->
  fvde._path_spec (snd st') = Some path_spec /\ HasParent path_spec = true.
Proof.
  unfold fvde.Open, fvde._Open, bind.
  destruct (HasParent path_spec) eqn:Hp; cbn [negb].
  - unfold get_self, external, set_self, try_except_reraise. cbn [fst snd].
    destruct (ExtractCredentialsFromPathSpec env _ _); [|discriminate].
    destruct (pyfvde_volume env _); [|discriminate].
    destruct (OpenFileObject env _ _ _); [|discriminate].
    destruct (FVDEVolumeOpen env _ _ _ _).
    + intros H. inversion H. split; reflexivity.
    + destruct (close env _ _); discriminate.
  - unfold raise. discriminate.
Qed.

(** C9.  For an open file system (it holds its defining path specification,
    which has a parent, as [Open] leaves it), [GetRootFileEntry] returns an
    entry that is virtual and root and whose path specification is built
    from the defining one: for the SQLite blob file system it has the
    defining table name, column name and parent, and its row index and row
    condition read as [None]; for the FVDE file system it has the defining
    parent. *)
Theorem C9_GetRootFileEntry_synthesized :
  (forall (h : list call) (fs : sqlite.SQLiteBlobFileSystem)
          (defining : PathSpec) (table_name column_name : pyval),
     sqlite._path_spec fs = Some defining ->
     HasParent defining = true ->
     attrs defining !! "table_name" = Some table_name ->
     attrs defining !! "column_name" = Some column_name ->
     exists entry,
       sqlite.GetRootFileEntry (h, fs) = (Return entry, (h, fs)) /\
       is_root entry = true /\ is_virtual entry = true /\
       type_indicator (entry_path_spec entry) = TYPE_INDICATOR_SQLITE_BLOB /\
       parent (entry_path_spec entry) = parent defining /\
       attrs (entry_path_spec entry) !! "table_name" = Some table_name /\
       attrs (entry_path_spec entry) !! "column_name" = Some column_name /\
       getattr_default (entry_path_spec entry) "row_index" = PyNone /\
       getattr_default (entry_path_spec entry) "row_condition" = PyNone) /\
  (forall (h : list call) (fs : fvde.FVDEFileSystem) (defining : PathSpec),
     fvde._path_spec fs = Some defining ->
     HasParent defining = true ->
     exists entry,
       fvde.GetRootFileEntry (h, fs) = (Return entry, (h, fs)) /\
       is_root entry = true /\ is_virtual entry = true /\
       type_indicator (entry_path_spec entry) = TYPE_INDICATOR_FVDE /\
       parent (entry_path_spec entry) = parent defining).
Proof.
  split.
  - intros h fs defining table_name column_name Hs Hp Htable Hcolumn.
    unfold HasParent in Hp. apply negb_true_iff in Hp.
    unfold sqlite.GetRootFileEntry, bind, get_self, lift. cbn [fst snd].
    rewrite Hs. unfold getattr. rewrite Htable, Hcolumn.
    unfold SQLiteBlobPathSpec. rewrite Hp.
    rewrite sqlite_GetFileEntryByPathSpec_eq.
    eexists. split; [reflexivity|].
    repeat split; reflexivity.
  - intros h fs defining Hf Hp.
    unfold HasParent in Hp. apply negb_true_iff in Hp.
    unfold fvde.GetRootFileEntry, bind, get_self, lift. cbn [fst snd].
    rewrite Hf. unfold FVDEPathSpec. rewrite Hp.
    rewrite fvde_GetFileEntryByPathSpec_eq.
    eexists. split; [reflexivity|].
    repeat split; reflexivity.
Qed.

(** C9 (witness): the table file system opened on the image's table and the
    volume file system opened on the image's encrypted volume. *)
Lemma C9_witness :
  sqlite.Open env_ok blob_table_spec "rb" ([], sqlite_fs)
  = (Return tt, ([call_OpenFileObject (PyPathSpec os_spec) 7], sqlite_fs_open)) /\
  (exists entry,
     sqlite.GetRootFileEntry ([], sqlite_fs_open)
     = (Return entry, ([], sqlite_fs_open)) /\
     is_root entry = true /\ is_virtual entry = true /\
     type_indicator (entry_path_spec entry) = TYPE_INDICATOR_SQLITE_BLOB /\
     parent (entry_path_spec entry) = parent blob_table_spec /\
     attrs (entry_path_spec entry) !! "table_name" = Some (PyStr "blobs") /\
     attrs (entry_path_spec entry) !! "column_name" = Some (PyStr "data") /\
     getattr_default (entry_path_spec entry) "row_index" = PyNone /\
     getattr_default (entry_path_spec entry) "row_condition" = PyNone) /\
  (exists entry,
     fvde.GetRootFileEntry ([], fvde_fs_open) = (Return entry, ([], fvde_fs_open)) /\
     is_root entry = true /\ is_virtual entry = true /\
     type_indicator (entry_path_spec entry) = TYPE_INDICATOR_FVDE /\
     parent (entry_path_spec entry) = parent fvde_spec).
Proof.
  split; [reflexivity|]. split.
  - apply (proj1 C9_GetRootFileEntry_synthesized [] sqlite_fs_open
             blob_table_spec (PyStr "blobs") (PyStr "data")); reflexivity.
  - apply (proj2 C9_GetRootFileEntry_synthesized [] fvde_fs_open fvde_spec);
      reflexivity.
Defined.

(* --------------------------------------------------------------------- *)
(** *** The fake path specification *)
(* --------------------------------------------------------------------- *)

(** A parent that counts as set makes the constructor raise ValueError. *)
Lemma FakePathSpec_truthy_parent (location : pyval)
    (kwargs : gmap string pyval) (v : pyval) :
  kwargs !! "parent" = Some v -> truthy v = true ->
  FakePathSpec location kwargs = Raise (ValueError "Parent value set.").
Proof.
  intros Hk Ht. unfold FakePathSpec. rewrite Hk, Ht. reflexivity.
Qed.

(** C4 (as amended).  Constructing a FakePathSpec with a parent supplied (a
    path specification, or any other value that counts as true) fails with
    a ValueError, which is not a PathSpecError; constructing it without a
    parent (no [parent] keyword, or [parent=None]) succeeds, and
    [HasParent()] of the result is false. *)
Theorem C4_FakePathSpec_parent
    (location : pyval) (kwargs : gmap string pyval) :
  (forall v, kwargs !! "parent" = Some v -> truthy v = true ->
     exists e, FakePathSpec location kwargs = Raise e /\
               e = ValueError "Parent value set." /\
               isinstance e "ValueError" = true /\
               isinstance e "PathSpecError" = false) /\
  (forall p, kwargs !! "parent" = Some (PyPathSpec p) ->
     FakePathSpec location kwargs = Raise (ValueError "Parent value set.")) /\
  (absent_or_None (kwargs !! "parent") ->
     exists spec, FakePathSpec location kwargs = Return spec /\
                  HasParent spec = false /\
                  type_indicator spec = TYPE_INDICATOR_FAKE).
Proof.
  split; [|split].
  - intros v Hk Ht. eexists. split.
    + apply (FakePathSpec_truthy_parent _ _ _ Hk Ht).
    + repeat split; reflexivity.
  - intros p Hk. apply (FakePathSpec_truthy_parent _ _ _ Hk). reflexivity.
  - intros [Hk|Hk]; unfold FakePathSpec; rewrite Hk; cbn [truthy];
      unfold LocationPathSpec_init; eexists; repeat split; reflexivity.
Qed.

(** C4 (counterexample).  With the raw image file as parent the constructor
    raises a ValueError, and a ValueError is not a PathSpecError. *)
Lemma C4_parent_raises_ValueError :
  FakePathSpec (PyStr "/") kwargs_with_parent
  = Raise (ValueError "Parent value set.") /\
  isinstance (ValueError "Parent value set.") "PathSpecError" = false /\
  isinstance (ValueError "Parent value set.") "ValueError" = true.
Proof. repeat split; reflexivity. Qed.

(** C4 (witness): no keyword arguments at all. *)
Lemma C4_witness :
  exists spec, FakePathSpec (PyStr "/") ∅ = Return spec /\
               HasParent spec = false /\
               type_indicator spec = TYPE_INDICATOR_FAKE.
Proof.
  apply (proj2 (proj2 (C4_FakePathSpec_parent (PyStr "/") ∅))).
  left. reflexivity.
Defined.

(* --------------------------------------------------------------------- *)
(** *** The number of rows *)
(* --------------------------------------------------------------------- *)

(** With a stored count nothing is called and nothing changes. *)
Lemma GetNumberOfRows_stored (env : Env) (path_spec : PathSpec) (n : Z)
    (st : list call * sqlite.SQLiteBlobFileSystem) :
  sqlite._number_of_rows (snd st) = Some n ->
  sqlite.GetNumberOfRows env path_spec st = (Return n, st).
Proof.
  intros Hn. unfold sqlite.GetNumberOfRows, bind, get_self.
  rewrite Hn. reflexivity.
Qed.

(** The count is stored before the stream is closed: a call whose
    [close()] raises fails and leaves the count stored. *)
Lemma GetNumberOfRows_close_raises (env : Env) (path_spec : PathSpec)
    (h : list call) (fs : sqlite.SQLiteBlobFileSystem)
    (fo : file_object) (n : Z) (e : exc) :
  let ctx := sqlite._resolver_context fs in
  let h1 := (h ++ [call_OpenFileObject (PyPathSpec path_spec) ctx])%list in
  let h2 := (h1 ++ [call_GetNumberOfRows fo])%list in
  sqlite._number_of_rows fs = None ->
  OpenFileObject env h (PyPathSpec path_spec) ctx = Return fo ->
  file_GetNumberOfRows env h1 fo = Return n ->
  close env h2 fo = Raise e ->
  sqlite.GetNumberOfRows env path_spec (h, fs) =
  (Raise e, ((h2 ++ [call_close fo])%list, sqlite.set_number_of_rows (Some n) fs)).
Proof.
  intros ctx h1 h2 Hnone Hopen Hrows Hclose.
  unfold sqlite.GetNumberOfRows, bind, get_self, external, set_self, ret.
  cbn [fst snd]. rewrite Hnone. cbn [fst snd]. fold ctx. rewrite Hopen.
  fold h1. rewrite Hrows. fold h2. rewrite Hclose. reflexivity.
Qed.

(** C7 (as amended).  A call of [GetNumberOfRows] that succeeds while no
    count is stored (as [Open] leaves the instance) has opened the
    underlying stream once, asked it for the count, stored the count and
    closed the stream, in this order and with no other call; every later
    call, for any path specification, returns the stored count, calls
    nothing (the stream is not opened again) and changes nothing. *)
Theorem C7_GetNumberOfRows_caches
    (env : Env) (path_spec : PathSpec) (h : list call)
    (fs : sqlite.SQLiteBlobFileSystem) (n : Z)
    (st' : list call * sqlite.SQLiteBlobFileSystem) :
  sqlite._number_of_rows fs = None ->
  sqlite.GetNumberOfRows env path_spec (h, fs) = (Return n, st') ->
  let ctx := sqlite._resolver_context fs in
  (exists fo,
     OpenFileObject env h (PyPathSpec path_spec) ctx = Return fo /\
     st' = ((h ++ [call_OpenFileObject (PyPathSpec path_spec) ctx;
                   call_GetNumberOfRows fo; call_close fo])%list,
            sqlite.set_number_of_rows (Some n) fs)) /\
  sqlite._number_of_rows (snd st') = Some n /\
  (forall path_spec', sqlite.GetNumberOfRows env path_spec' st' = (Return n, st')) /\
  (forall path_spec' h'' fs'', sqlite._number_of_rows fs'' = Some n ->
     sqlite.GetNumberOfRows env path_spec' (h'', fs'') = (Return n, (h'', fs''))).
Proof.
  intros Hnone Hcall ctx.
  assert (Hfirst : exists fo,
     OpenFileObject env h (PyPathSpec path_spec) ctx = Return fo /\
     st' = ((h ++ [call_OpenFileObject (PyPathSpec path_spec) ctx;
                   call_GetNumberOfRows fo; call_close fo])%list,
            sqlite.set_number_of_rows (Some n) fs)).
  { revert Hcall.
    unfold sqlite.GetNumberOfRows, bind, get_self, external, set_self, ret.
    cbn [fst snd]. rewrite Hnone. cbn [fst snd]. fold ctx.
    destruct (OpenFileObject env h (PyPathSpec path_spec) ctx) as [fo|e];
      [|discriminate].
    destruct (file_GetNumberOfRows env _ fo) as [m|e]; [|discriminate].
    destruct (close env _ fo) as [[]|e]; [|discriminate].
    intros H. inversion H; subst. exists fo. split; [reflexivity|].
    rewrite <- !app_assoc. reflexivity. }
  destruct Hfirst as (fo & Hopen & ->).
  split; [exists fo; split; [exact Hopen | reflexivity]|].
  split; [reflexivity|].
  split.
  - intros path_spec'. apply GetNumberOfRows_stored. reflexivity.
  - intros path_spec' h'' fs'' Hn.
    apply (GetNumberOfRows_stored env path_spec' n (h'', fs'')). exact Hn.
Qed.

(** C7 (witness): the first query on the freshly opened table file system
    opens file object 0, reads 42 rows and closes it; the second query, for
    another row, answers 42 from the stored count. *)
Lemma C7_witness :
  let first := sqlite.GetNumberOfRows env_ok blob_row0_spec ([], sqlite_fs_open) in
  sqlite._number_of_rows sqlite_fs_open = None /\
  first = (Return 42%Z,
           ([call_OpenFileObject (PyPathSpec blob_row0_spec) 7;
             call_GetNumberOfRows 0; call_close 0],
            sqlite.set_number_of_rows (Some 42%Z) sqlite_fs_open)) /\
  sqlite.GetNumberOfRows env_ok blob_row3_spec (snd first)
  = (Return 42%Z, snd first).
Proof.
  cbv zeta.
  split; [reflexivity|]. split; [reflexivity|].
  apply (proj1 (proj2 (proj2
    (C7_GetNumberOfRows_caches env_ok blob_row0_spec [] sqlite_fs_open 42%Z
       (snd (sqlite.GetNumberOfRows env_ok blob_row0_spec ([], sqlite_fs_open)))
       eq_refl eq_refl)))).
Defined.

(** C7 (counterexample).  Every [close()] fails: the first query opens the
    stream, stores 42 and fails in the close; the second query is the first
    to succeed, and it opens, stores and closes nothing. *)
Lemma C7_first_success_after_failed_close :
  let first := sqlite.GetNumberOfRows env_close_fails blob_row0_spec
                 ([], sqlite_fs_open) in
  sqlite._number_of_rows sqlite_fs_open = None /\
  first = (Raise (IOError "close failed"),
           ([call_OpenFileObject (PyPathSpec blob_row0_spec) 7;
             call_GetNumberOfRows 0; call_close 0],
            sqlite.set_number_of_rows (Some 42%Z) sqlite_fs_open)) /\
  sqlite.GetNumberOfRows env_close_fails blob_row0_spec (snd first)
  = (Return 42%Z, snd first).
Proof. cbv zeta. repeat split; reflexivity. Qed.

(* ===================================================================== *)
(** ** Further properties of the three modules *)
(* ===================================================================== *)

Import more_examples.

(* --------------------------------------------------------------------- *)
(** *** [_Open] of the FVDE file system, step by step *)
(* --------------------------------------------------------------------- *)

(** With a parent, [_Open] is decided by the answers of its four
    collaborators, and by the answer of [close()] when the unlock fails. *)
Lemma fvde_Open_eq (env : Env) (path_spec : PathSpec) (mode : string)
    (h : list call) (fs : fvde.FVDEFileSystem) :
  let ctx := fvde._resolver_context fs in
  let h1 := h ++ [call_ExtractCredentialsFromPathSpec path_spec] in
  let h2 := h1 ++ [call_pyfvde_volume] in
  let h3 := h2 ++ [call_OpenFileObject (parent path_spec) ctx] in
  HasParent path_spec = true ->
  fvde._Open env path_spec mode (h, fs) =
  match ExtractCredentialsFromPathSpec env h path_spec with
  | Raise e => (Raise e, (h1, fs))
  | Return _ =>
      match pyfvde_volume env h1 with
      | Raise e => (Raise e, (h2, fs))
      | Return v =>
          match OpenFileObject env h2 (parent path_spec) ctx with
          | Raise e => (Raise e, (h3, fs))
          | Return fo =>
              let h4 := h3 ++ [call_FVDEVolumeOpen v path_spec fo] in
              match FVDEVolumeOpen env h3 v path_spec fo with
              | Return _ =>
                  (Return tt,
                   (h4, fvde.set_file_object (Some fo)
                          (fvde.set_fvde_volume (Some v) fs)))
              | Raise e =>
                  (match close env h4 fo with
                   | Return _ => Raise e
                   | Raise e' => Raise e'
                   end, (h4 ++ [call_close fo], fs))
              end
          end
      end
  end.
Proof.
  intros ctx h1 h2 h3 Hp.
  unfold fvde._Open. rewrite Hp. cbn [negb].
  unfold bind, get_self, external, try_except_reraise, set_self.
  cbn [fst snd]. fold ctx. fold h1.
  destruct (ExtractCredentialsFromPathSpec env h path_spec); [|reflexivity].
  fold h2. destruct (pyfvde_volume env h1) as [v|]; [|reflexivity].
  fold h3.
  destruct (OpenFileObject env h2 (parent path_spec) ctx) as [fo|]; [|reflexivity].
  cbn zeta.
  destruct (FVDEVolumeOpen env h3 v path_spec fo) as [[]|e]; [reflexivity|].
  destruct (close env _ fo); reflexivity.
Qed.

(** X1.  Whatever step of [_Open] of the FVDE file system fails (the parent
    test, the key chain, the creation of the volume, the open of the parent,
    the unlock, or the close after a failed unlock), the fields of the
    instance are what they were before the call. *)
Theorem X1_fvde_Open_failure_leaves_fields
    (env : Env) (path_spec : PathSpec) (mode : string) (h : list call)
    (fs : fvde.FVDEFileSystem) (e : exc)
    (st' : list call * fvde.FVDEFileSystem) :
  fvde._Open env path_spec mode (h, fs) = (Raise e, st') ->
  snd st' = fs.
Proof.
  destruct (HasParent path_spec) eqn:Hp.
  - rewrite (fvde_Open_eq env path_spec mode h fs Hp). cbn zeta.
    destruct (ExtractCredentialsFromPathSpec env h path_spec);
      [|intros H; inversion H; reflexivity].
    destruct (pyfvde_volume env _) as [v|];
      [|intros H; inversion H; reflexivity].
    destruct (OpenFileObject env _ _ _) as [fo|];
      [|intros H; inversion H; reflexivity].
    destruct (FVDEVolumeOpen env _ v path_spec fo) as [[]|e0];
      [discriminate|].
    intros H; inversion H; reflexivity.
  - rewrite (fvde_Open_without_parent env path_spec mode (h, fs) Hp).
    intros H; inversion H; reflexivity.
Qed.

(** X1 (witness): the parent cannot be opened. *)
Lemma X1_witness :
  fvde._Open env_access_denied fvde_spec "rb" ([], fvde_fs)
  = (Raise (AccessError "denied"),
     ([call_ExtractCredentialsFromPathSpec fvde_spec; call_pyfvde_volume;
       call_OpenFileObject (PyPathSpec os_spec) 7], fvde_fs)) /\
  snd (snd (fvde._Open env_access_denied fvde_spec "rb" ([], fvde_fs))) = fvde_fs.
Proof.
  split; [reflexivity|].
  apply (X1_fvde_Open_failure_leaves_fields env_access_denied fvde_spec "rb" []
           fvde_fs (AccessError "denied")
           (snd (fvde._Open env_access_denied fvde_spec "rb" ([], fvde_fs)))).
  reflexivity.
Defined.

(** X2.  When [_Open] of the FVDE file system returns, the path
    specification has a parent, exactly four calls were made (key chain,
    new volume, open of the parent, unlock of that volume on that file
    object) and none of them is a [close()]; [_fvde_volume] and
    [_file_object] hold the volume and the file object obtained, and the
    other fields are unchanged. *)
Theorem X2_fvde_Open_success
    (env : Env) (path_spec : PathSpec) (mode : string) (h : list call)
    (fs : fvde.FVDEFileSystem) (st' : list call * fvde.FVDEFileSystem) :
  fvde._Open env path_spec mode (h, fs) = (Return tt, st') ->
  let ctx := fvde._resolver_context fs in
  let h1 := h ++ [call_ExtractCredentialsFromPathSpec path_spec] in
  let h2 := h1 ++ [call_pyfvde_volume] in
  let h3 := h2 ++ [call_OpenFileObject (parent path_spec) ctx] in
  HasParent path_spec = true /\
  exists v fo,
    pyfvde_volume env h1 = Return v /\
    OpenFileObject env h2 (parent path_spec) ctx = Return fo /\
    FVDEVolumeOpen env h3 v path_spec fo = Return tt /\
    fst st' = h ++ [call_ExtractCredentialsFromPathSpec path_spec;
                    call_pyfvde_volume;
                    call_OpenFileObject (parent path_spec) ctx;
                    call_FVDEVolumeOpen v path_spec fo] /\
    fvde._fvde_volume (snd st') = Some v /\
    fvde._file_object (snd st') = Some fo /\
    fvde._path_spec (snd st') = fvde._path_spec fs /\
    fvde._resolver_context (snd st') = fvde._resolver_context fs /\
    fvde.self (snd st') = fvde.self fs.
Proof.
  intros Hopen ctx h1 h2 h3.
  destruct (HasParent path_spec) eqn:Hp.
  2:{ rewrite (fvde_Open_without_parent env path_spec mode (h, fs) Hp) in Hopen.
      discriminate. }
  split; [reflexivity|].
  rewrite (fvde_Open_eq env path_spec mode h fs Hp) in Hopen.
  cbn zeta in Hopen. fold ctx h1 h2 h3 in Hopen.
  destruct (ExtractCredentialsFromPathSpec env h path_spec); [|discriminate].
  destruct (pyfvde_volume env h1) as [v|] eqn:Hv; [|discriminate].
  destruct (OpenFileObject env h2 (parent path_spec) ctx) as [fo|] eqn:Hfo;
    [|discriminate].
  destruct (FVDEVolumeOpen env h3 v path_spec fo) as [[]|e0] eqn:Hu.
  - inversion Hopen; subst st'. exists v, fo. cbn [fst snd].
    split; [first [exact Hv | reflexivity]|].
    split; [first [exact Hfo | reflexivity]|].
    split; [first [exact Hu | reflexivity]|].
    split; [unfold h3, h2, h1; rewrite <- !app_assoc; reflexivity|].
    repeat split; reflexivity.
  - destruct (close env _ fo); discriminate.
Qed.

(** X2 (witness): the volume of the image is unlocked. *)
Lemma X2_witness :
  HasParent fvde_spec = true /\
  exists v fo,
    pyfvde_volume env_ok [call_ExtractCredentialsFromPathSpec fvde_spec]
    = Return v /\
    OpenFileObject env_ok
      [call_ExtractCredentialsFromPathSpec fvde_spec; call_pyfvde_volume]
      (parent fvde_spec) 7 = Return fo /\
    FVDEVolumeOpen env_ok
      [call_ExtractCredentialsFromPathSpec fvde_spec; call_pyfvde_volume;
       call_OpenFileObject (parent fvde_spec) 7] v fvde_spec fo = Return tt /\
    fst (snd (fvde._Open env_ok fvde_spec "rb" ([], fvde_fs)))
    = [call_ExtractCredentialsFromPathSpec fvde_spec; call_pyfvde_volume;
       call_OpenFileObject (parent fvde_spec) 7;
       call_FVDEVolumeOpen v fvde_spec fo] /\
    fvde._fvde_volume (snd (snd (fvde._Open env_ok fvde_spec "rb" ([], fvde_fs))))
    = Some v /\
    fvde._file_object (snd (snd (fvde._Open env_ok fvde_spec "rb" ([], fvde_fs))))
    = Some fo /\
    fvde._path_spec (snd (snd (fvde._Open env_ok fvde_spec "rb" ([], fvde_fs))))
    = fvde._path_spec fvde_fs /\
    fvde._resolver_context
      (snd (snd (fvde._Open env_ok fvde_spec "rb" ([], fvde_fs))))
    = fvde._resolver_context fvde_fs /\
    fvde.self (snd (snd (fvde._Open env_ok fvde_spec "rb" ([], fvde_fs))))
    = fvde.self fvde_fs.
Proof.
  apply (X2_fvde_Open_success env_ok fvde_spec "rb" [] fvde_fs
           (snd (fvde._Open env_ok fvde_spec "rb" ([], fvde_fs)))).
  reflexivity.
Defined.

(** X3.  On a fresh instance [GetFVDEVolume] returns [None].  After [_Open]
    on a fresh instance it returns a volume exactly when [_Open] returned,
    and that volume is the one the last call of [_Open] unlocked;
    [GetFVDEVolume] itself calls nothing and changes nothing. *)
Theorem X3_GetFVDEVolume_follows_Open
    (env : Env) (path_spec : PathSpec) (mode : string) (h : list call)
    (id : object_id) (ctx : context) :
  let fresh := fvde.__init__ id ctx in
  let r := fvde._Open env path_spec mode (h, fresh) in
  fvde.GetFVDEVolume (h, fresh) = (Return None, (h, fresh)) /\
  ((exists v, fst (fvde.GetFVDEVolume (snd r)) = Return (Some v)) <->
   fst r = Return tt) /\
  (forall v, fst (fvde.GetFVDEVolume (snd r)) = Return (Some v) ->
     exists fo calls,
       fst (snd r) = calls ++ [call_FVDEVolumeOpen v path_spec fo]) /\
  snd (fvde.GetFVDEVolume (snd r)) = snd r.
Proof.
  intros fresh r.
  split; [reflexivity|].
  assert (Hget : forall st : list call * fvde.FVDEFileSystem,
            fvde.GetFVDEVolume st = (Return (fvde._fvde_volume (snd st)), st))
    by reflexivity.
  rewrite !Hget. cbn [fst snd].
  assert (Hcases :
    (fst r = Return tt /\ exists v fo calls,
        fvde._fvde_volume (snd (snd r)) = Some v /\
        fst (snd r) = calls ++ [call_FVDEVolumeOpen v path_spec fo]) \/
    ((exists e, fst r = Raise e) /\ fvde._fvde_volume (snd (snd r)) = None)).
  { subst r. destruct (HasParent path_spec) eqn:Hp.
    - rewrite (fvde_Open_eq env path_spec mode h fresh Hp). cbn zeta.
      destruct (ExtractCredentialsFromPathSpec env h path_spec);
        [|right; split; [eexists|]; reflexivity].
      destruct (pyfvde_volume env _) as [v|];
        [|right; split; [eexists|]; reflexivity].
      destruct (OpenFileObject env _ _ _) as [fo|];
        [|right; split; [eexists|]; reflexivity].
      destruct (FVDEVolumeOpen env _ v path_spec fo) as [[]|e0].
      + left. split; [reflexivity|]. exists v, fo. eexists.
        split; reflexivity.
      + right. destruct (close env _ fo); split; try eexists; reflexivity.
    - rewrite (fvde_Open_without_parent env path_spec mode (h, fresh) Hp).
      right. split; [eexists|]; reflexivity. }
  destruct Hcases as [(Hr & v & fo & calls & Hv & Hcalls) | ((e & Hr) & Hv)].
  - split; [split; [intros _; exact Hr | intros _; exists v; rewrite Hv; reflexivity]|].
    split; [|reflexivity].
    intros v' Hv'. rewrite Hv in Hv'. inversion Hv'; subst v'.
    exists fo, calls. exact Hcalls.
  - split; [split|].
    + intros (v & Hv'). rewrite Hv in Hv'. discriminate.
    + intros Hr'. rewrite Hr in Hr'. discriminate.
    + split; [|reflexivity]. intros v Hv'. rewrite Hv in Hv'. discriminate.
Qed.

(** X4.  [_Open] of the FVDE file system calls [close()] only on the parent
    file object it has just opened and only after the unlock on it has
    failed: a [close()] among its calls means that the five calls were key
    chain, new volume, open of the parent, unlock and that close, and that
    [_Open] raised.  In particular an [_Open] that returns has closed
    nothing. *)
Theorem X4_fvde_Open_closes_only_after_failed_unlock
    (env : Env) (path_spec : PathSpec) (mode : string) (h : list call)
    (fs : fvde.FVDEFileSystem) (l : list call) (fo : file_object) :
  fst (snd (fvde._Open env path_spec mode (h, fs))) = h ++ l ->
  In (call_close fo) l ->
  let ctx := fvde._resolver_context fs in
  exists v e0,
    OpenFileObject env
      (h ++ [call_ExtractCredentialsFromPathSpec path_spec; call_pyfvde_volume])
      (parent path_spec) ctx = Return fo /\
    FVDEVolumeOpen env
      (h ++ [call_ExtractCredentialsFromPathSpec path_spec; call_pyfvde_volume;
             call_OpenFileObject (parent path_spec) ctx])
      v path_spec fo = Raise e0 /\
    l = [call_ExtractCredentialsFromPathSpec path_spec; call_pyfvde_volume;
         call_OpenFileObject (parent path_spec) ctx;
         call_FVDEVolumeOpen v path_spec fo; call_close fo] /\
    exists e, fst (fvde._Open env path_spec mode (h, fs)) = Raise e.
Proof.
  intros Hl Hin ctx.
  destruct (HasParent path_spec) eqn:Hp.
  2:{ rewrite (fvde_Open_without_parent env path_spec mode (h, fs) Hp) in Hl.
      cbn [fst snd] in Hl. rewrite <- (app_nil_r h) in Hl at 1.
      apply app_inv_head in Hl. subst l. destruct Hin. }
  rewrite (fvde_Open_eq env path_spec mode h fs Hp) in *.
  cbn zeta in *. fold ctx in Hl |- *.
  rewrite <- !app_assoc in *. cbn [app] in *.
  destruct (ExtractCredentialsFromPathSpec env h path_spec).
  2:{ cbn [fst snd] in Hl. apply app_inv_head in Hl. subst l.
      simpl in Hin. repeat (destruct Hin as [Hin|Hin]; try discriminate).
      contradiction. }
  destruct (pyfvde_volume env _) as [v|].
  2:{ cbn [fst snd] in Hl. apply app_inv_head in Hl. subst l.
      simpl in Hin. repeat (destruct Hin as [Hin|Hin]; try discriminate).
      contradiction. }
  destruct (OpenFileObject env _ (parent path_spec) ctx) as [fo0|] eqn:Hfo.
  2:{ cbn [fst snd] in Hl. apply app_inv_head in Hl. subst l.
      simpl in Hin. repeat (destruct Hin as [Hin|Hin]; try discriminate).
      contradiction. }
  destruct (FVDEVolumeOpen env _ v path_spec fo0) as [[]|e0] eqn:Hu.
  - cbn [fst snd] in Hl. rewrite <- !app_assoc in Hl. cbn [app] in Hl.
    apply app_inv_head in Hl. subst l.
    simpl in Hin. repeat (destruct Hin as [Hin|Hin]; try discriminate).
    contradiction.
  - assert (Hl' : l = [call_ExtractCredentialsFromPathSpec path_spec;
                       call_pyfvde_volume;
                       call_OpenFileObject (parent path_spec) ctx;
                       call_FVDEVolumeOpen v path_spec fo0; call_close fo0]).
    { destruct (close env _ fo0); cbn [fst snd] in Hl;
        rewrite <- !app_assoc in Hl; cbn [app] in Hl;
        apply app_inv_head in Hl; symmetry; exact Hl. }
    subst l. simpl in Hin.
    repeat (destruct Hin as [Hin|Hin]; try discriminate); try contradiction.
    inversion Hin; subst fo0.
    exists v, e0. split; [first [exact Hfo | reflexivity]|].
    split; [first [exact Hu | reflexivity]|].
    split; [reflexivity|].
    destruct (close env _ fo); eexists; reflexivity.
Qed.

(** X4 (witness): the unlock fails and file object 2 is closed. *)
Lemma X4_witness :
  exists v e0,
    OpenFileObject env_wrong_key
      ([] ++ [call_ExtractCredentialsFromPathSpec fvde_spec; call_pyfvde_volume])
      (parent fvde_spec) 7 = Return 2 /\
    FVDEVolumeOpen env_wrong_key
      ([] ++ [call_ExtractCredentialsFromPathSpec fvde_spec; call_pyfvde_volume;
              call_OpenFileObject (parent fvde_spec) 7])
      v fvde_spec 2 = Raise e0 /\
    [call_ExtractCredentialsFromPathSpec fvde_spec; call_pyfvde_volume;
     call_OpenFileObject (PyPathSpec os_spec) 7;
     call_FVDEVolumeOpen 1 fvde_spec 2; call_close 2]
    = [call_ExtractCredentialsFromPathSpec fvde_spec; call_pyfvde_volume;
       call_OpenFileObject (parent fvde_spec) 7;
       call_FVDEVolumeOpen v fvde_spec 2; call_close 2] /\
    exists e, fst (fvde._Open env_wrong_key fvde_spec "rb" ([], fvde_fs)) = Raise e.
Proof.
  apply (X4_fvde_Open_closes_only_after_failed_unlock env_wrong_key fvde_spec
           "rb" [] fvde_fs
           [call_ExtractCredentialsFromPathSpec fvde_spec; call_pyfvde_volume;
            call_OpenFileObject (PyPathSpec os_spec) 7;
            call_FVDEVolumeOpen 1 fvde_spec 2; call_close 2] 2).
  - reflexivity.
  - simpl. auto 10.
Defined.

(* --------------------------------------------------------------------- *)
(** *** Opening and closing the SQLite blob file system *)
(* --------------------------------------------------------------------- *)

(** [_Open] of the SQLite blob file system, by the answer of the resolver. *)
Lemma sqlite_Open_eq (env : Env) (path_spec : PathSpec) (mode : string)
    (h : list call) (fs : sqlite.SQLiteBlobFileSystem) :
  let ctx := sqlite._resolver_context fs in
  let h1 := h ++ [call_OpenFileObject (parent path_spec) ctx] in
  HasParent path_spec = true ->
  sqlite._Open env path_spec mode (h, fs) =
  match OpenFileObject env h (parent path_spec) ctx with
  | Return fo => (Return tt, (h1, sqlite.set_file_object (Some fo) fs))
  | Raise e => (Raise e, (h1, fs))
  end.
Proof.
  intros ctx h1 Hp. unfold sqlite._Open. rewrite Hp. cbn [negb].
  unfold bind, get_self, external, set_self. cbn [fst snd]. fold ctx.
  destruct (OpenFileObject env h (parent path_spec) ctx); reflexivity.
Qed.

(** [_Close] of the SQLite blob file system, by the answer of [close()]. *)
Lemma sqlite_Close_eq (env : Env) (h : list call)
    (fs : sqlite.SQLiteBlobFileSystem) (fo : file_object) :
  sqlite._file_object fs = Some fo ->
  sqlite._Close env (h, fs) =
  match close env h fo with
  | Return _ =>
      (Return tt, (h ++ [call_close fo],
                   sqlite.set_number_of_rows None (sqlite.set_file_object None fs)))
  | Raise e => (Raise e, (h ++ [call_close fo], fs))
  end.
Proof.
  intros Hfo. unfold sqlite._Close, bind, get_self, external, set_self.
  cbn [fst snd]. rewrite Hfo. cbn [fst snd].
  destruct (close env h fo); reflexivity.
Qed.

(** [_Close] on an instance that holds no file object. *)
Lemma sqlite_Close_None (env : Env) (st : list call * sqlite.SQLiteBlobFileSystem) :
  sqlite._file_object (snd st) = None ->
  sqlite._Close env st = (Raise (AttributeError "close"), st).
Proof.
  intros Hfo. unfold sqlite._Close, bind, get_self. rewrite Hfo.
  reflexivity.
Qed.

(** X5.  [_Open] of the SQLite blob file system is all or nothing.  When it
    raises, the fields are what they were; an exception of the resolver
    reaches the caller unchanged.  When it returns, the path specification
    has a parent, the only call made is the open of that parent, and the
    only field assigned is [_file_object], which holds the file object the
    resolver returned: a stored row count and a file object held before
    are neither reset nor closed. *)
Theorem X5_sqlite_Open_all_or_nothing
    (env : Env) (path_spec : PathSpec) (mode : string) (h : list call)
    (fs : sqlite.SQLiteBlobFileSystem) :
  let ctx := sqlite._resolver_context fs in
  let h1 := h ++ [call_OpenFileObject (parent path_spec) ctx] in
  let r := sqlite._Open env path_spec mode (h, fs) in
  (forall e, fst r = Raise e -> snd (snd r) = fs) /\
  (forall e, HasParent path_spec = true ->
     OpenFileObject env h (parent path_spec) ctx = Raise e ->
     r = (Raise e, (h1, fs))) /\
  (fst r = Return tt ->
     HasParent path_spec = true /\
     exists fo, OpenFileObject env h (parent path_spec) ctx = Return fo /\
                snd r = (h1, sqlite.set_file_object (Some fo) fs) /\
                sqlite._number_of_rows (snd (snd r)) = sqlite._number_of_rows fs).
Proof.
  intros ctx h1 r. subst r.
  destruct (HasParent path_spec) eqn:Hp.
  - rewrite (sqlite_Open_eq env path_spec mode h fs Hp). cbn zeta.
    fold ctx. fold h1.
    destruct (OpenFileObject env h (parent path_spec) ctx) as [fo|e0];
      cbn [fst snd].
    + split; [discriminate|]. split; [discriminate|].
      intros _. split; [reflexivity|]. exists fo. repeat split; reflexivity.
    + split; [reflexivity|]. split.
      * intros e _ He. inversion He. reflexivity.
      * discriminate.
  - rewrite (sqlite_Open_without_parent env path_spec mode (h, fs) Hp).
    cbn [fst snd]. split; [reflexivity|]. split; discriminate.
Qed.

(** X5 (witness): the image cannot be opened, the fresh instance stays as
    it was. *)
Lemma X5_witness :
  sqlite._Open env_access_denied blob_table_spec "rb" ([], sqlite_fs)
  = (Raise (AccessError "denied"),
     ([call_OpenFileObject (PyPathSpec os_spec) 7], sqlite_fs)).
Proof.
  apply (proj1 (proj2 (X5_sqlite_Open_all_or_nothing env_access_denied
                         blob_table_spec "rb" [] sqlite_fs))
           (AccessError "denied")); reflexivity.
Defined.

(** X6.  Open and close undo each other.  On an instance that holds
    neither a file object nor a row count (a fresh one), [_Open] followed
    by [_Close], when the resolver and the [close()] return, makes two
    calls, the open of the parent and the close of the very file object that
    open returned, and leaves the instance as it was. *)
Theorem X6_sqlite_Open_then_Close
    (env : Env) (path_spec : PathSpec) (mode : string) (h : list call)
    (fs : sqlite.SQLiteBlobFileSystem) (fo : file_object) :
  let ctx := sqlite._resolver_context fs in
  let h1 := h ++ [call_OpenFileObject (parent path_spec) ctx] in
  sqlite._file_object fs = None ->
  sqlite._number_of_rows fs = None ->
  HasParent path_spec = true ->
  OpenFileObject env h (parent path_spec) ctx = Return fo ->
  close env h1 fo = Return tt ->
  bind (sqlite._Open env path_spec mode) (fun _ => sqlite._Close env) (h, fs)
  = (Return tt, (h ++ [call_OpenFileObject (parent path_spec) ctx; call_close fo],
                 fs)).
Proof.
  intros ctx h1 Hfo Hn Hp Hopen Hclose.
  unfold bind at 1. rewrite (sqlite_Open_eq env path_spec mode h fs Hp).
  cbn zeta. fold ctx. rewrite Hopen. fold h1.
  rewrite (sqlite_Close_eq env h1 _ fo) by reflexivity.
  rewrite Hclose. unfold h1. rewrite <- app_assoc. cbn [app].
  destruct fs as [i c p f n]. cbn in Hfo, Hn. subst f n. reflexivity.
Qed.

(** X6 (witness): the fresh table file system, opened and closed. *)
Lemma X6_witness :
  bind (sqlite._Open env_ok blob_table_spec "rb") (fun _ => sqlite._Close env_ok)
    ([], sqlite_fs)
  = (Return tt,
     ([call_OpenFileObject (PyPathSpec os_spec) 7; call_close 0], sqlite_fs)).
Proof.
  apply (X6_sqlite_Open_then_Close env_ok blob_table_spec "rb" [] sqlite_fs 0);
    reflexivity.
Defined.

(** X7.  Closing twice fails.  After a [_Close] that returned, a second
    [_Close] raises AttributeError ([None] has no [close]), and [close()]
    has been called on the file object once, not twice; on an instance that
    was never opened [_Close] raises the same error and calls nothing. *)
Theorem X7_sqlite_Close_twice
    (env : Env) (h : list call) (fs : sqlite.SQLiteBlobFileSystem)
    (fo : file_object) :
  sqlite._file_object fs = Some fo ->
  close env h fo = Return tt ->
  (exists e,
     bind (sqlite._Close env) (fun _ => sqlite._Close env) (h, fs)
     = (Raise e, (h ++ [call_close fo],
                  sqlite.set_number_of_rows None (sqlite.set_file_object None fs)))
     /\ isinstance e "AttributeError" = true) /\
  (forall id ctx, exists e,
     sqlite._Close env (h, sqlite.__init__ id ctx)
     = (Raise e, (h, sqlite.__init__ id ctx))
     /\ isinstance e "AttributeError" = true).
Proof.
  intros Hfo Hclose. split.
  - exists (AttributeError "close"). split; [|reflexivity].
    unfold bind at 1. rewrite (sqlite_Close_eq env h fs fo Hfo), Hclose.
    apply sqlite_Close_None. reflexivity.
  - intros id ctx. exists (AttributeError "close"). split; [|reflexivity].
    apply sqlite_Close_None. reflexivity.
Qed.

(** X7 (witness): the open table file system, closed twice. *)
Lemma X7_witness :
  exists e,
    bind (sqlite._Close env_ok) (fun _ => sqlite._Close env_ok) ([], sqlite_fs_open)
    = (Raise e, ([] ++ [call_close 0],
                 sqlite.set_number_of_rows None
                   (sqlite.set_file_object None sqlite_fs_open)))
    /\ isinstance e "AttributeError" = true.
Proof.
  apply (proj1 (X7_sqlite_Close_twice env_ok [] sqlite_fs_open 0
                  eq_refl eq_refl)).
Defined.

(** X8.  A [_Close] whose [close()] raises lets that exception through and
    resets nothing: the instance still holds the file object and the
    stored row count, so a second [_Close] calls [close()] on the same file
    object again. *)
Theorem X8_sqlite_Close_failure_keeps_fields
    (env : Env) (h : list call) (fs : sqlite.SQLiteBlobFileSystem)
    (fo : file_object) (e : exc) :
  sqlite._file_object fs = Some fo ->
  close env h fo = Raise e ->
  sqlite._Close env (h, fs) = (Raise e, (h ++ [call_close fo], fs)) /\
  fst (snd (sqlite._Close env (snd (sqlite._Close env (h, fs)))))
  = h ++ [call_close fo; call_close fo].
Proof.
  intros Hfo Hclose.
  rewrite (sqlite_Close_eq env h fs fo Hfo), Hclose.
  split; [reflexivity|]. cbn [snd].
  rewrite (sqlite_Close_eq env _ fs fo Hfo).
  destruct (close env (h ++ [call_close fo]) fo); cbn [fst snd];
    rewrite <- app_assoc; reflexivity.
Qed.

(** X8 (witness): no [close()] succeeds; the count of 42 rows stays. *)
Lemma X8_witness :
  sqlite._Close env_close_fails ([], sqlite_fs_counted)
  = (Raise (IOError "close failed"), ([] ++ [call_close 0], sqlite_fs_counted)) /\
  fst (snd (sqlite._Close env_close_fails
              (snd (sqlite._Close env_close_fails ([], sqlite_fs_counted)))))
  = [] ++ [call_close 0; call_close 0].
Proof.
  apply (X8_sqlite_Close_failure_keeps_fields env_close_fails []
           sqlite_fs_counted 0 (IOError "close failed")); reflexivity.
Defined.

(* --------------------------------------------------------------------- *)
(** *** The number of rows, further *)
(* --------------------------------------------------------------------- *)

(** Without a stored count the query starts with an open of the path
    specification it is given. *)
Lemma GetNumberOfRows_asks_resolver (env : Env) (path_spec : PathSpec)
    (h : list call) (fs : sqlite.SQLiteBlobFileSystem) :
  sqlite._number_of_rows fs = None ->
  exists rest,
    fst (snd (sqlite.GetNumberOfRows env path_spec (h, fs)))
    = h ++ call_OpenFileObject (PyPathSpec path_spec)
             (sqlite._resolver_context fs) :: rest.
Proof.
  intros Hn.
  unfold sqlite.GetNumberOfRows, bind, get_self, external, set_self, ret.
  cbn [fst snd]. rewrite Hn. cbn [fst snd].
  destruct (OpenFileObject env h _ _) as [fo|].
  - destruct (file_GetNumberOfRows env _ fo) as [n|].
    + destruct (close env _ fo); cbn [fst snd]; rewrite <- !app_assoc;
        eexists; reflexivity.
    + cbn [fst snd]. rewrite <- !app_assoc. eexists; reflexivity.
  - cbn [fst snd]. eexists; reflexivity.
Qed.

(** X9.  The stored row count does not survive a close.  While the count
    [n] is stored, [GetNumberOfRows] answers [n] without any call; after a
    [_Close] that returned, the next [GetNumberOfRows] opens the path
    specification it is given again. *)
Theorem X9_sqlite_Close_resets_row_count
    (env : Env) (path_spec : PathSpec) (h : list call)
    (fs : sqlite.SQLiteBlobFileSystem) (fo : file_object) (n : Z) :
  sqlite._file_object fs = Some fo ->
  sqlite._number_of_rows fs = Some n ->
  close env h fo = Return tt ->
  sqlite.GetNumberOfRows env path_spec (h, fs) = (Return n, (h, fs)) /\
  exists rest,
    fst (snd (sqlite.GetNumberOfRows env path_spec
                (snd (sqlite._Close env (h, fs)))))
    = h ++ call_close fo
           :: call_OpenFileObject (PyPathSpec path_spec)
                (sqlite._resolver_context fs) :: rest.
Proof.
  intros Hfo Hn Hclose. split.
  - apply GetNumberOfRows_stored. exact Hn.
  - rewrite (sqlite_Close_eq env h fs fo Hfo), Hclose. cbn [snd].
    destruct (GetNumberOfRows_asks_resolver env path_spec (h ++ [call_close fo])
                (sqlite.set_number_of_rows None (sqlite.set_file_object None fs))
                eq_refl) as (rest & Hrest).
    exists rest. rewrite Hrest. rewrite <- app_assoc. reflexivity.
Qed.

(** X9 (witness): 42 rows are stored; after the close the image's table is
    opened again. *)
Lemma X9_witness :
  sqlite.GetNumberOfRows env_ok blob_row3_spec ([], sqlite_fs_counted)
  = (Return 42%Z, ([], sqlite_fs_counted)) /\
  exists rest,
    fst (snd (sqlite.GetNumberOfRows env_ok blob_row3_spec
                (snd (sqlite._Close env_ok ([], sqlite_fs_counted)))))
    = [] ++ call_close 0
            :: call_OpenFileObject (PyPathSpec blob_row3_spec)
                 (sqlite._resolver_context sqlite_fs_counted) :: rest.
Proof.
  apply (X9_sqlite_Close_resets_row_count env_ok blob_row3_spec []
           sqlite_fs_counted 0 42%Z); reflexivity.
Defined.

(** X10.  A failed row count stores nothing, and may leave a file object
    open.  With no count stored: when the open raises, the exception
    reaches the caller after that single call; when the open returns and
    [GetNumberOfRows()] of the file object raises, the exception reaches
    the caller and [close()] is not called on the file object.  In both
    cases the fields are unchanged, so the next query starts over. *)
Theorem X10_GetNumberOfRows_failure
    (env : Env) (path_spec : PathSpec) (h : list call)
    (fs : sqlite.SQLiteBlobFileSystem) :
  let ctx := sqlite._resolver_context fs in
  let h1 := h ++ [call_OpenFileObject (PyPathSpec path_spec) ctx] in
  sqlite._number_of_rows fs = None ->
  (forall e, OpenFileObject env h (PyPathSpec path_spec) ctx = Raise e ->
     sqlite.GetNumberOfRows env path_spec (h, fs) = (Raise e, (h1, fs))) /\
  (forall fo e,
     OpenFileObject env h (PyPathSpec path_spec) ctx = Return fo ->
     file_GetNumberOfRows env h1 fo = Raise e ->
     sqlite.GetNumberOfRows env path_spec (h, fs)
     = (Raise e, (h ++ [call_OpenFileObject (PyPathSpec path_spec) ctx;
                        call_GetNumberOfRows fo], fs))).
Proof.
  intros ctx h1 Hn. split.
  - intros e Hopen.
    unfold sqlite.GetNumberOfRows, bind, get_self, external.
    cbn [fst snd]. rewrite Hn. cbn [fst snd]. fold ctx. rewrite Hopen.
    reflexivity.
  - intros fo e Hopen Hrows.
    unfold sqlite.GetNumberOfRows, bind, get_self, external.
    cbn [fst snd]. rewrite Hn. cbn [fst snd]. fold ctx. rewrite Hopen.
    fold h1. rewrite Hrows. unfold h1. rewrite <- app_assoc. reflexivity.
Qed.

(** X10 (witness): the rows cannot be counted; file object 0 stays open. *)
Lemma X10_witness :
  sqlite.GetNumberOfRows env_rows_fail blob_row0_spec ([], sqlite_fs_open)
  = (Raise (IOError "unable to count rows"),
     ([] ++ [call_OpenFileObject (PyPathSpec blob_row0_spec) 7;
             call_GetNumberOfRows 0], sqlite_fs_open)).
Proof.
  apply (proj2 (X10_GetNumberOfRows_failure env_rows_fail blob_row0_spec []
                  sqlite_fs_open eq_refl) 0 (IOError "unable to count rows"));
    reflexivity.
Defined.

(** X11.  [GetNumberOfRows] works on a file object of its own: whatever the
    outcome, the only field it may assign is [_number_of_rows] (the
    instance's own file object, defining path specification and resolver
    context are untouched), and it assigns it at most once, from no count
    to the count the file object answered; a stored count is never changed
    or cleared. *)
Theorem X11_GetNumberOfRows_assigns_only_the_count
    (env : Env) (path_spec : PathSpec) (h : list call)
    (fs : sqlite.SQLiteBlobFileSystem) :
  let ctx := sqlite._resolver_context fs in
  let h1 := h ++ [call_OpenFileObject (PyPathSpec path_spec) ctx] in
  let fs' := snd (snd (sqlite.GetNumberOfRows env path_spec (h, fs))) in
  sqlite.set_number_of_rows (sqlite._number_of_rows fs') fs = fs' /\
  (sqlite._number_of_rows fs' = sqlite._number_of_rows fs \/
   exists fo n,
     sqlite._number_of_rows fs = None /\
     OpenFileObject env h (PyPathSpec path_spec) ctx = Return fo /\
     file_GetNumberOfRows env h1 fo = Return n /\
     sqlite._number_of_rows fs' = Some n).
Proof.
  intros ctx h1 fs'. subst fs'.
  unfold sqlite.GetNumberOfRows, bind, get_self, external, set_self, ret.
  cbn [fst snd]. fold ctx.
  destruct fs as [i c p f [n|]]; cbn [sqlite._number_of_rows fst snd].
  - split; [reflexivity | left; reflexivity].
  - fold h1.
    destruct (OpenFileObject env h (PyPathSpec path_spec) ctx) as [fo|] eqn:Ho;
      cbn [fst snd]; [|split; [reflexivity | left; reflexivity]].
    destruct (file_GetNumberOfRows env h1 fo) as [n|] eqn:Hr;
      cbn [fst snd]; [|split; [reflexivity | left; reflexivity]].
    destruct (close env _ fo); cbn [fst snd];
      (split; [reflexivity
             | right; exists fo, n; repeat split;
               first [eassumption | reflexivity]]).
Qed.

(* --------------------------------------------------------------------- *)
(** *** Root entries, further *)
(* --------------------------------------------------------------------- *)

(** X12.  [GetRootFileEntry] needs the defining path specification.  On an
    instance that holds none (as [__init__] leaves it) it raises
    AttributeError, for the SQLite blob and for the FVDE file system; for
    the SQLite blob file system it also does when the defining path
    specification lacks [table_name] or [column_name].  Nothing is called
    and no field changes; AttributeError is not one of the four classes of
    the existence check. *)
Theorem X12_GetRootFileEntry_without_defining_spec :
  (forall (h : list call) (fs : sqlite.SQLiteBlobFileSystem),
     sqlite._path_spec fs = None ->
     exists e, sqlite.GetRootFileEntry (h, fs) = (Raise e, (h, fs)) /\
               isinstance e "AttributeError" = true /\ in_taxonomy e = false) /\
  (forall (h : list call) (fs : sqlite.SQLiteBlobFileSystem) (defining : PathSpec),
     sqlite._path_spec fs = Some defining ->
     attrs defining !! "table_name" = None \/
     attrs defining !! "column_name" = None ->
     exists e, sqlite.GetRootFileEntry (h, fs) = (Raise e, (h, fs)) /\
               isinstance e "AttributeError" = true /\ in_taxonomy e = false) /\
  (forall (h : list call) (fs : fvde.FVDEFileSystem),
     fvde._path_spec fs = None ->
     exists e, fvde.GetRootFileEntry (h, fs) = (Raise e, (h, fs)) /\
               isinstance e "AttributeError" = true /\ in_taxonomy e = false) /\
  (forall id ctx, sqlite._path_spec (sqlite.__init__ id ctx) = None /\
                  fvde._path_spec (fvde.__init__ id ctx) = None).
Proof.
  split; [|split; [|split]].
  - intros h fs Hp. exists (AttributeError "table_name").
    split; [|split; reflexivity].
    unfold sqlite.GetRootFileEntry, bind, get_self. cbn [fst snd].
    rewrite Hp. reflexivity.
  - intros h fs defining Hp Hmissing.
    unfold sqlite.GetRootFileEntry, bind, get_self, lift, getattr.
    cbn [fst snd]. rewrite Hp.
    destruct (attrs defining !! "table_name") as [t|] eqn:Ht.
    + destruct Hmissing as [Hm|Hm]; [discriminate|]. rewrite Hm.
      exists (AttributeError "column_name"). repeat split; reflexivity.
    + exists (AttributeError "table_name"). repeat split; reflexivity.
  - intros h fs Hp. exists (AttributeError "parent").
    split; [|split; reflexivity].
    unfold fvde.GetRootFileEntry, bind, get_self. cbn [fst snd].
    rewrite Hp. reflexivity.
  - intros id ctx. split; reflexivity.
Qed.

(** X12 (witness): the fresh instances. *)
Lemma X12_witness :
  (exists e, sqlite.GetRootFileEntry ([], sqlite_fs) = (Raise e, ([], sqlite_fs)) /\
             isinstance e "AttributeError" = true /\ in_taxonomy e = false) /\
  (exists e, fvde.GetRootFileEntry ([], fvde_fs) = (Raise e, ([], fvde_fs)) /\
             isinstance e "AttributeError" = true /\ in_taxonomy e = false).
Proof.
  split.
  - apply (proj1 X12_GetRootFileEntry_without_defining_spec [] sqlite_fs).
    reflexivity.
  - apply (proj1 (proj2 (proj2 X12_GetRootFileEntry_without_defining_spec))
             [] fvde_fs).
    reflexivity.
Defined.

(* --------------------------------------------------------------------- *)
(** *** Closing the FVDE file system *)
(* --------------------------------------------------------------------- *)

(** What a returning [_Open] leaves behind: the unlock as last call, and
    the two handles in the fields. *)
Lemma fvde_Open_return_fields (env : Env) (path_spec : PathSpec)
    (mode : string) (h : list call) (fs : fvde.FVDEFileSystem)
    (st' : list call * fvde.FVDEFileSystem) :
  fvde._Open env path_spec mode (h, fs) = (Return tt, st') ->
  exists v fo calls,
    fst st' = calls ++ [call_FVDEVolumeOpen v path_spec fo] /\
    snd st' = fvde.set_file_object (Some fo) (fvde.set_fvde_volume (Some v) fs).
Proof.
  intros Hopen.
  destruct (HasParent path_spec) eqn:Hp.
  2:{ rewrite (fvde_Open_without_parent env path_spec mode (h, fs) Hp) in Hopen.
      discriminate. }
  rewrite (fvde_Open_eq env path_spec mode h fs Hp) in Hopen.
  cbn zeta in Hopen.
  destruct (ExtractCredentialsFromPathSpec env h path_spec); [|discriminate].
  destruct (pyfvde_volume env _) as [v|]; [|discriminate].
  destruct (OpenFileObject env _ _ _) as [fo|]; [|discriminate].
  destruct (FVDEVolumeOpen env _ v path_spec fo) as [[]|e0].
  - inversion Hopen; subst st'. exists v, fo. eexists. split; reflexivity.
  - destruct (close env _ fo); discriminate.
Qed.

(** [_Close] of the FVDE file system when both fields are set, by the
    answers of the two [close()] calls. *)
Lemma fvde_Close_eq (env : fvde_close.CloseEnv) (h : list fvde_close.close_call)
    (fs : fvde.FVDEFileSystem) (v : volume) (fo : file_object) :
  fvde._fvde_volume fs = Some v ->
  fvde._file_object fs = Some fo ->
  let h1 := h ++ [fvde_close.call_volume_close v] in
  fvde_close._Close env (h, fs) =
  match fvde_close.volume_close env h v with
  | Raise e => (Raise e, (h1, fs))
  | Return _ =>
      match fvde_close.file_close env h1 fo with
      | Raise e =>
          (Raise e, (h1 ++ [fvde_close.earlier (call_close fo)],
                     fvde.set_fvde_volume None fs))
      | Return _ =>
          (Return tt, (h1 ++ [fvde_close.earlier (call_close fo)],
                       fvde.set_file_object None (fvde.set_fvde_volume None fs)))
      end
  end.
Proof.
  intros Hv Hfo h1. unfold fvde_close._Close. cbn [fst snd].
  rewrite Hv. fold h1.
  destruct (fvde_close.volume_close env h v); [|reflexivity].
  cbn [fvde.set_fvde_volume fvde._file_object]. rewrite Hfo.
  destruct (fvde_close.file_close env h1 fo); reflexivity.
Qed.

(** [_Close] of the FVDE file system without a volume. *)
Lemma fvde_Close_None (env : fvde_close.CloseEnv)
    (st : list fvde_close.close_call * fvde.FVDEFileSystem) :
  fvde._fvde_volume (snd st) = None ->
  fvde_close._Close env st = (Raise (AttributeError "close"), st).
Proof.
  intros Hv. unfold fvde_close._Close. rewrite Hv. destruct st; reflexivity.
Qed.

(** X13.  Open and close undo each other for the FVDE file system.  After
    an [_Open] that returned on a fresh instance, a [_Close] whose two
    [close()] calls return closes the volume that was unlocked and then the
    parent file object the unlock was given, calls nothing else, and leaves
    the instance as [__init__] made it. *)
Theorem X13_fvde_Open_then_Close
    (env : Env) (cenv : fvde_close.CloseEnv) (path_spec : PathSpec)
    (mode : string) (h : list call) (id : object_id) (ctx : context)
    (st' : list call * fvde.FVDEFileSystem) :
  fvde._Open env path_spec mode (h, fvde.__init__ id ctx) = (Return tt, st') ->
  (forall hh v, fvde_close.volume_close cenv hh v = Return tt) ->
  (forall hh fo, fvde_close.file_close cenv hh fo = Return tt) ->
  exists v fo calls,
    fst st' = calls ++ [call_FVDEVolumeOpen v path_spec fo] /\
    fvde_close._Close cenv (map fvde_close.earlier (fst st'), snd st')
    = (Return tt,
       (map fvde_close.earlier (fst st')
          ++ [fvde_close.call_volume_close v; fvde_close.earlier (call_close fo)],
        fvde.__init__ id ctx)).
Proof.
  intros Hopen Hvc Hfc.
  destruct (fvde_Open_return_fields _ _ _ _ _ _ Hopen)
    as (v & fo & calls & Hcalls & Hfields).
  exists v, fo, calls. split; [exact Hcalls|].
  rewrite Hfields.
  rewrite (fvde_Close_eq cenv _ _ v fo) by reflexivity.
  cbn zeta. rewrite Hvc, Hfc. rewrite <- app_assoc. reflexivity.
Qed.

(** X13 (witness): the volume of the image, unlocked and closed. *)
Lemma X13_witness :
  exists v fo calls,
    fst (snd (fvde._Open env_ok fvde_spec "rb" ([], fvde.__init__ 2 7)))
    = calls ++ [call_FVDEVolumeOpen v fvde_spec fo] /\
    fvde_close._Close close_env_ok
      (map fvde_close.earlier
         (fst (snd (fvde._Open env_ok fvde_spec "rb" ([], fvde.__init__ 2 7)))),
       snd (snd (fvde._Open env_ok fvde_spec "rb" ([], fvde.__init__ 2 7))))
    = (Return tt,
       (map fvde_close.earlier
          (fst (snd (fvde._Open env_ok fvde_spec "rb" ([], fvde.__init__ 2 7))))
          ++ [fvde_close.call_volume_close v; fvde_close.earlier (call_close fo)],
        fvde.__init__ 2 7)).
Proof.
  apply (X13_fvde_Open_then_Close env_ok close_env_ok fvde_spec "rb" [] 2 7
           (snd (fvde._Open env_ok fvde_spec "rb" ([], fvde.__init__ 2 7))));
    reflexivity.
Defined.

(** X14.  When the [close()] of the volume raises, [_Close] of the FVDE
    file system lets the exception through: [close()] is not called on the
    file object, and both fields keep their values.  The close can
    therefore be tried again: a second [_Close] whose two [close()] calls
    return closes the volume, then the file object, and clears both
    fields. *)
Theorem X14_fvde_Close_volume_failure
    (env : fvde_close.CloseEnv) (h : list fvde_close.close_call)
    (fs : fvde.FVDEFileSystem) (v : volume) (fo : file_object) (e : exc) :
  let h1 := h ++ [fvde_close.call_volume_close v] in
  let h2 := h1 ++ [fvde_close.call_volume_close v] in
  fvde._fvde_volume fs = Some v ->
  fvde._file_object fs = Some fo ->
  fvde_close.volume_close env h v = Raise e ->
  fvde_close.volume_close env h1 v = Return tt ->
  fvde_close.file_close env h2 fo = Return tt ->
  fvde_close._Close env (h, fs) = (Raise e, (h1, fs)) /\
  fvde_close._Close env (snd (fvde_close._Close env (h, fs)))
  = (Return tt,
     (h ++ [fvde_close.call_volume_close v; fvde_close.call_volume_close v;
            fvde_close.earlier (call_close fo)],
      fvde.set_file_object None (fvde.set_fvde_volume None fs))).
Proof.
  intros h1 h2 Hv Hfo Hvc Hvc' Hfc.
  rewrite (fvde_Close_eq env h fs v fo Hv Hfo). cbn zeta. fold h1.
  rewrite Hvc. split; [reflexivity|]. cbn [snd].
  rewrite (fvde_Close_eq env h1 fs v fo Hv Hfo). cbn zeta. fold h2.
  rewrite Hvc', Hfc. unfold h2, h1. rewrite <- !app_assoc. reflexivity.
Qed.

(** X14 (witness): the volume cannot be closed at first (with an empty
    history), and can afterwards. *)
Lemma X14_witness :
  fvde_close._Close close_env_volume_busy ([], fvde_fs_open)
  = (Raise (IOError "unable to close volume"),
     ([] ++ [fvde_close.call_volume_close 1], fvde_fs_open)) /\
  fvde_close._Close close_env_volume_busy
    (snd (fvde_close._Close close_env_volume_busy ([], fvde_fs_open)))
  = (Return tt,
     ([] ++ [fvde_close.call_volume_close 1; fvde_close.call_volume_close 1;
             fvde_close.earlier (call_close 2)],
      fvde.set_file_object None (fvde.set_fvde_volume None fvde_fs_open))).
Proof.
  apply (X14_fvde_Close_volume_failure close_env_volume_busy [] fvde_fs_open
           1 2 (IOError "unable to close volume")); reflexivity.
Defined.

(** X15.  When the volume is closed and the [close()] of the file object
    raises, [_fvde_volume] is already cleared while [_file_object] still
    holds the file object; a second [_Close] then raises AttributeError at
    the volume and does not call [close()] on the file object again. *)
Theorem X15_fvde_Close_file_failure
    (env : fvde_close.CloseEnv) (h : list fvde_close.close_call)
    (fs : fvde.FVDEFileSystem) (v : volume) (fo : file_object) (e : exc) :
  let h2 := h ++ [fvde_close.call_volume_close v;
                  fvde_close.earlier (call_close fo)] in
  fvde._fvde_volume fs = Some v ->
  fvde._file_object fs = Some fo ->
  fvde_close.volume_close env h v = Return tt ->
  fvde_close.file_close env (h ++ [fvde_close.call_volume_close v]) fo = Raise e ->
  fvde_close._Close env (h, fs) = (Raise e, (h2, fvde.set_fvde_volume None fs)) /\
  fvde._file_object (fvde.set_fvde_volume None fs) = Some fo /\
  exists e', fvde_close._Close env (h2, fvde.set_fvde_volume None fs)
             = (Raise e', (h2, fvde.set_fvde_volume None fs)) /\
             isinstance e' "AttributeError" = true.
Proof.
  intros h2 Hv Hfo Hvc Hfc.
  rewrite (fvde_Close_eq env h fs v fo Hv Hfo). cbn zeta.
  rewrite Hvc, Hfc. unfold h2. rewrite <- app_assoc.
  split; [reflexivity|]. split; [exact Hfo|].
  exists (AttributeError "close"). split; [|reflexivity].
  apply fvde_Close_None. reflexivity.
Qed.

(** X15 (witness): the file object under the volume cannot be closed. *)
Lemma X15_witness :
  fvde_close._Close close_env_file_fails ([], fvde_fs_open)
  = (Raise (IOError "unable to close file"),
     ([] ++ [fvde_close.call_volume_close 1; fvde_close.earlier (call_close 2)],
      fvde.set_fvde_volume None fvde_fs_open)) /\
  fvde._file_object (fvde.set_fvde_volume None fvde_fs_open) = Some 2 /\
  exists e',
    fvde_close._Close close_env_file_fails
      ([] ++ [fvde_close.call_volume_close 1; fvde_close.earlier (call_close 2)],
       fvde.set_fvde_volume None fvde_fs_open)
    = (Raise e',
       ([] ++ [fvde_close.call_volume_close 1; fvde_close.earlier (call_close 2)],
        fvde.set_fvde_volume None fvde_fs_open)) /\
    isinstance e' "AttributeError" = true.
Proof.
  apply (X15_fvde_Close_file_failure close_env_file_fails [] fvde_fs_open 1 2
           (IOError "unable to close file")); reflexivity.
Defined.

(** X16.  Closing the FVDE file system twice fails: after a [_Close] that
    returned, a second one raises AttributeError and calls nothing (each of
    the two objects has been closed once); so does [_Close] on an instance
    that was never opened. *)
Theorem X16_fvde_Close_twice
    (env : fvde_close.CloseEnv) (h : list fvde_close.close_call)
    (fs : fvde.FVDEFileSystem) (v : volume) (fo : file_object) :
  let h2 := h ++ [fvde_close.call_volume_close v;
                  fvde_close.earlier (call_close fo)] in
  let closed := fvde.set_file_object None (fvde.set_fvde_volume None fs) in
  fvde._fvde_volume fs = Some v ->
  fvde._file_object fs = Some fo ->
  fvde_close.volume_close env h v = Return tt ->
  fvde_close.file_close env (h ++ [fvde_close.call_volume_close v]) fo = Return tt ->
  fvde_close._Close env (h, fs) = (Return tt, (h2, closed)) /\
  (exists e, fvde_close._Close env (h2, closed) = (Raise e, (h2, closed)) /\
             isinstance e "AttributeError" = true) /\
  (forall id ctx, exists e,
     fvde_close._Close env (h, fvde.__init__ id ctx)
     = (Raise e, (h, fvde.__init__ id ctx)) /\
     isinstance e "AttributeError" = true).
Proof.
  intros h2 closed Hv Hfo Hvc Hfc.
  rewrite (fvde_Close_eq env h fs v fo Hv Hfo). cbn zeta.
  rewrite Hvc, Hfc. unfold h2. rewrite <- app_assoc.
  split; [reflexivity|]. split.
  - exists (AttributeError "close"). split; [|reflexivity].
    apply fvde_Close_None. reflexivity.
  - intros id ctx. exists (AttributeError "close"). split; [|reflexivity].
    apply fvde_Close_None. reflexivity.
Qed.

(** X16 (witness): the open volume file system, closed twice. *)
Lemma X16_witness :
  fvde_close._Close close_env_ok ([], fvde_fs_open)
  = (Return tt,
     ([] ++ [fvde_close.call_volume_close 1; fvde_close.earlier (call_close 2)],
      fvde.set_file_object None (fvde.set_fvde_volume None fvde_fs_open))) /\
  (exists e,
     fvde_close._Close close_env_ok
       ([] ++ [fvde_close.call_volume_close 1; fvde_close.earlier (call_close 2)],
        fvde.set_file_object None (fvde.set_fvde_volume None fvde_fs_open))
     = (Raise e,
        ([] ++ [fvde_close.call_volume_close 1; fvde_close.earlier (call_close 2)],
         fvde.set_file_object None (fvde.set_fvde_volume None fvde_fs_open))) /\
     isinstance e "AttributeError" = true) /\
  (forall id ctx, exists e,
     fvde_close._Close close_env_ok ([], fvde.__init__ id ctx)
     = (Raise e, ([], fvde.__init__ id ctx)) /\
     isinstance e "AttributeError" = true).
Proof.
  apply (X16_fvde_Close_twice close_env_ok [] fvde_fs_open 1 2); reflexivity.
Defined.

(* --------------------------------------------------------------------- *)
(** *** The fake path specification, further *)
(* --------------------------------------------------------------------- *)

(** X17.  Whenever the construction of a FakePathSpec succeeds, the base
    class has been given the type indicator of the fake path specification,
    the location, the keyword arguments without [parent], and as parent the
    value that was supplied ([None] when none was), which does not count as
    true: the parent of the result is never a path specification.  The test
    is a truth test: a supplied parent that counts as false (an empty
    string, say) is accepted and becomes the parent, so [HasParent()] of
    the result is true unless that value is [None]. *)
Theorem X17_FakePathSpec_result
    (location : pyval) (kwargs : gmap string pyval) (spec : PathSpec) :
  FakePathSpec location kwargs = Return spec ->
  let supplied := default PyNone (kwargs !! "parent") in
  LocationPathSpec_init TYPE_INDICATOR_FAKE location supplied
    (delete "parent" kwargs) = Return spec /\
  truthy supplied = false /\
  parent spec = supplied /\
  (forall p, parent spec <> PyPathSpec p) /\
  HasParent spec = negb (is_None supplied) /\
  type_indicator spec = TYPE_INDICATOR_FAKE.
Proof.
  intros Hspec supplied. subst supplied.
  unfold FakePathSpec in Hspec.
  destruct (kwargs !! "parent") as [v|] eqn:Hk; cbn [default from_option id].
  - destruct (truthy v) eqn:Ht; [discriminate|].
    split; [exact Hspec|]. split; [first [exact Ht | reflexivity]|].
    unfold LocationPathSpec_init in Hspec. inversion Hspec; subst spec.
    cbn [parent]. split; [reflexivity|]. split.
    + intros p Hp. subst v. discriminate.
    + split; reflexivity.
  - cbn [truthy] in Hspec.
    assert (Hdel : delete "parent" kwargs = kwargs).
    { apply map_eq. intros k. destruct (decide (k = "parent")) as [->|Hne].
      - rewrite lookup_delete_eq. symmetry. exact Hk.
      - apply lookup_delete_ne. congruence. }
    rewrite Hdel. split; [exact Hspec|]. split; [reflexivity|].
    unfold LocationPathSpec_init in Hspec. inversion Hspec; subst spec.
    cbn [parent]. split; [reflexivity|]. split; [discriminate|].
    split; reflexivity.
Qed.

(** X17 (witness): [FakePathSpec(location=u'/', parent=u'', inode=5)]
    succeeds, and its [HasParent()] is true. *)
Lemma X17_witness :
  let spec := Build_PathSpec TYPE_INDICATOR_FAKE (PyStr "")
                (<["location" := PyStr "/"]> (<["inode" := PyInt 5]> ∅)) in
  LocationPathSpec_init TYPE_INDICATOR_FAKE (PyStr "/")
    (default PyNone (kwargs_with_empty_parent !! "parent"))
    (delete "parent" kwargs_with_empty_parent) = Return spec /\
  truthy (default PyNone (kwargs_with_empty_parent !! "parent")) = false /\
  parent spec = default PyNone (kwargs_with_empty_parent !! "parent") /\
  (forall p, parent spec <> PyPathSpec p) /\
  HasParent spec = negb (is_None (default PyNone (kwargs_with_empty_parent !! "parent"))) /\
  type_indicator spec = TYPE_INDICATOR_FAKE.
Proof.
  cbv zeta.
  apply (X17_FakePathSpec_result (PyStr "/") kwargs_with_empty_parent).
  vm_compute. reflexivity.
Defined.

(* --------------------------------------------------------------------- *)
(** *** The existence check, further *)
(* --------------------------------------------------------------------- *)

(** X18.  The existence check closes what it opens and nothing else: its
    calls are the open of the path specification and, exactly when that
    open returned a file object, [close()] on that file object.  It does not
    use the instance's own file object: on any instance with the same
    resolver context, open or not, it makes the same calls and gives the
    same outcome. *)
Theorem X18_FileEntryExistsByPathSpec_calls
    (env : Env) (path_spec : PathSpec) (h : list call)
    (fs : sqlite.SQLiteBlobFileSystem) :
  let ctx := sqlite._resolver_context fs in
  let r := sqlite.FileEntryExistsByPathSpec env path_spec (h, fs) in
  fst (snd r)
  = h ++ call_OpenFileObject (PyPathSpec path_spec) ctx
         :: match OpenFileObject env h (PyPathSpec path_spec) ctx with
            | Return fo => [call_close fo]
            | Raise _ => []
            end /\
  (forall fs2 : sqlite.SQLiteBlobFileSystem,
     sqlite._resolver_context fs2 = ctx ->
     fst (sqlite.FileEntryExistsByPathSpec env path_spec (h, fs2)) = fst r /\
     fst (snd (sqlite.FileEntryExistsByPathSpec env path_spec (h, fs2)))
     = fst (snd r)).
Proof.
  intros ctx r. subst r. split.
  - rewrite FileEntryExistsByPathSpec_eq. cbn zeta. fold ctx.
    destruct (OpenFileObject env h (PyPathSpec path_spec) ctx) as [fo|e];
      cbn [fst snd]; [rewrite <- app_assoc|]; reflexivity.
  - intros fs2 Hctx. rewrite !FileEntryExistsByPathSpec_eq. cbn zeta.
    rewrite Hctx. fold ctx.
    destruct (OpenFileObject env h (PyPathSpec path_spec) ctx) as [fo|e];
      split; reflexivity.
Qed.

(** X18 (witness): on the fresh, never opened instance the check of row 0
    opens file object 0 and closes it, as on the open one. *)
Lemma X18_witness :
  fst (sqlite.FileEntryExistsByPathSpec env_ok blob_row0_spec ([], sqlite_fs))
  = fst (sqlite.FileEntryExistsByPathSpec env_ok blob_row0_spec
           ([], sqlite_fs_open)) /\
  fst (snd (sqlite.FileEntryExistsByPathSpec env_ok blob_row0_spec ([], sqlite_fs)))
  = fst (snd (sqlite.FileEntryExistsByPathSpec env_ok blob_row0_spec
                ([], sqlite_fs_open))).
Proof.
  apply (proj2 (X18_FileEntryExistsByPathSpec_calls env_ok blob_row0_spec []
                  sqlite_fs_open) sqlite_fs).
  reflexivity.
Defined.
